(** * ToDoAPI: authentication gate, login, start-up check and notes storage

    A shallow embedding of the Express application:
    - [server.js]                      process start-up and the JWT_SECRET check;
    - [controllers/auth.controller.js] [login];
    - [middleware/auth.middleware.js]  the session gate put in front of the
                                        notes routes;
    - [controllers/notes.controllers.js] [createNote] and [getNotes];
    - [routes/notes.route.js]          the notes router.

    The npm dependencies (jsonwebtoken, bcrypt, mongoose) are not part of the
    repository.  The control flow of [jwt.sign] and [jwt.verify] is written
    out; the cryptographic primitives and the base64url/JSON codec under them
    are the fields of a type class.  Mongoose collections are lists of
    documents held in the state that the handlers thread. *)

From Stdlib Require Import ZArith String Ascii List Bool Lia.
From stdpp Require Import base strings list gmap.
Import ListNotations.

Local Open Scope string_scope.
Local Open Scope list_scope.
Local Open Scope Z_scope.

(** ** JavaScript string primitives used by the handlers

    A [string] is read as a sequence of code units below 256. *)
Module JS.

(** [s.split(sep)] for a separator of one character: never empty, and
    [k] occurrences of [sep] give [k + 1] pieces. *)
Fixpoint split (sep : ascii) (s : string) : list string :=
  match s with
  | EmptyString => [EmptyString]
  | String c r =>
      if Ascii.eqb c sep then EmptyString :: split sep r
      else match split sep r with
           | x :: xs => String c x :: xs
           | [] => [String c EmptyString]
           end
  end.

(** ECMAScript WhiteSpace and LineTerminator code units below 256:
    TAB, LF, VT, FF, CR, SP and NBSP. *)
Definition isWhiteSpace (c : ascii) : bool :=
  let n := N_of_ascii c in
  (((9 <=? n) && (n <=? 13)) || (n =? 32) || (n =? 160))%N.

Fixpoint trimStart (s : string) : string :=
  match s with
  | EmptyString => EmptyString
  | String c r => if isWhiteSpace c then trimStart r else s
  end.

Fixpoint reverse (acc s : string) : string :=
  match s with
  | EmptyString => acc
  | String c r => reverse (String c acc) r
  end.

Definition trimEnd (s : string) : string :=
  reverse EmptyString (trimStart (reverse EmptyString s)).

(** [s.trim()] *)
Definition trim (s : string) : string := trimEnd (trimStart s).

(** Truthiness of a value that is [undefined] or a string: [!v] holds for
    [undefined] and for the empty string. *)
Definition truthy (v : option string) : bool :=
  match v with
  | Some (String _ _) => true
  | _ => false
  end.

End JS.

(** ** The jsonwebtoken dependency *)
Module Jwt.

Inductive Algorithm := HS256 | HS384 | HS512 | OtherAlg.

(** The claims of a token minted by [login]: [jwt.sign({id: user._id}, ...,
    {expiresIn: '1h'})] adds [iat] and [exp], both in seconds. *)
Record Payload := { id : string; iat : Z; exp : Z }.

(** What lies under the library: the keyed hash (already base64url encoded,
    as it appears in the third segment) and the codec of the first two
    segments.  [decode_header] and [decode_payload] answer [None] for a
    segment that is not the base64url of a JSON object of the expected
    shape. *)
Class Lib := {
  hmac : Algorithm -> string -> string -> string;
  encode_payload : Payload -> string;
  decode_payload : string -> option Payload;
  decode_header : string -> option Algorithm
}.

(** The errors [jwt.verify] throws on the paths this program can take. *)
Inductive Error :=
| JwtMustBeProvided
| JwtMalformed
| InvalidToken
| JwtSignatureIsRequired
| SecretOrPublicKeyMustBeProvided
| UnsignedTokenNotAllowed
| InvalidAlgorithm
| InvalidSignature
| TokenExpired (expiredAt : Z).

(** [sign] throws when the key is missing. *)
Inductive SignError := SecretOrPrivateKeyMustHaveAValue.

(** base64url of [{"alg":"HS256","typ":"JWT"}], the header [jwt.sign]
    writes when no algorithm is asked for. *)
Definition header_HS256 : string := "eyJhbGciOiJIUzI1NiIsInR5cCI6IkpXVCJ9".

Definition isBase64UrlChar (c : ascii) : bool :=
  let n := N_of_ascii c in
  (((65 <=? n) && (n <=? 90)) || ((97 <=? n) && (n <=? 122))
   || ((48 <=? n) && (n <=? 57)) || (n =? 45) || (n =? 95))%N.

Fixpoint allBase64Url (s : string) : bool :=
  match s with
  | EmptyString => true
  | String c r => isBase64UrlChar c && allBase64Url r
  end.

Definition nonEmpty (s : string) : bool :=
  match s with EmptyString => false | String _ _ => true end.

(** jws: [/^[a-zA-Z0-9\-_]+?\.[a-zA-Z0-9\-_]+?\.([a-zA-Z0-9\-_]+)?$/] on
    the three segments. *)
Definition isValidJws (h p s : string) : bool :=
  nonEmpty h && allBase64Url h && nonEmpty p && allBase64Url p && allBase64Url s.

Definition securedInput (h p : string) : string := h +:+ "." +:+ p.

Definition isHmacAlgorithm (a : Algorithm) : bool :=
  match a with HS256 | HS384 | HS512 => true | OtherAlg => false end.

(** [jwt.decode(jwtString, {complete: true})] *)
Record Decoded := { header : Algorithm; payload : Payload; signature : string }.

Section WithLib.
Context {lib : Lib}.

(** [jwt.sign({id}, secretOrPrivateKey, {expiresIn})] at clock [now]
    (seconds since the epoch). *)
Definition sign (subject : string) (secretOrPrivateKey : option string)
           (expiresIn : Z) (now : Z) : SignError + string :=
  match secretOrPrivateKey with
  | Some (String _ _ as key) =>
      let payload := {| id := subject; iat := now; exp := now + expiresIn |} in
      let input := securedInput header_HS256 (encode_payload payload) in
      inr (input +:+ "." +:+ hmac HS256 key input)
  | _ => inl SecretOrPrivateKeyMustHaveAValue
  end.

(** [null] when the string is not three base64url segments or a segment
    does not parse. *)
Definition decode (jwtString : string) : option Decoded :=
  match JS.split "." jwtString with
  | [h; p; s] =>
      if isValidJws h p s then
        match decode_header h, decode_payload p with
        | Some alg, Some pl => Some {| header := alg; payload := pl; signature := s |}
        | _, _ => None
        end
      else None
  | _ => None
  end.

(** [jws.verify(jwtString, alg, key)] for the HMAC family: recompute the
    signature over the first two segments and compare it with the third. *)
Definition jws_verify (jwtString : string) (alg : Algorithm) (key : string) : bool :=
  match JS.split "." jwtString with
  | h :: p :: s :: _ => String.eqb s (hmac alg key (securedInput h p))
  | _ => false
  end.

(** [jwt.verify(jwtString, secretOrPublicKey)] with no options, at clock
    [clockTimestamp].  [inl] is a thrown error. *)
Definition verify (jwtString : option string) (secretOrPublicKey : option string)
           (clockTimestamp : Z) : Error + Payload :=
  match jwtString with
  | None | Some EmptyString => inl JwtMustBeProvided
  | Some str =>
      let parts := JS.split "." str in
      if negb (Nat.eqb (length parts) 3) then inl JwtMalformed else
      match decode str with
      | None => inl InvalidToken
      | Some decodedToken =>
          let hasSignature := negb (String.eqb (JS.trim (nth 2 parts "")) "") in
          match secretOrPublicKey with
          | Some (String _ _ as key) =>
              if negb hasSignature then inl JwtSignatureIsRequired
              else if negb (isHmacAlgorithm decodedToken.(header)) then inl InvalidAlgorithm
              else if negb (jws_verify str decodedToken.(header) key) then inl InvalidSignature
              else if decodedToken.(payload).(exp) <=? clockTimestamp
              then inl (TokenExpired decodedToken.(payload).(exp))
              else inr decodedToken.(payload)
          | _ =>
              if hasSignature then inl SecretOrPublicKeyMustBeProvided
              else inl UnsignedTokenNotAllowed
          end
      end
  end.

End WithLib.

End Jwt.

(** ** bcrypt: only [compare] is on the paths modelled here *)
Class Bcrypt := { bcrypt_compare : string -> string -> bool }.

(** ** Requests, responses and the state of the process *)

#[warnings="-register-all"]
Inductive Json :=
| JString (s : string)
| JObject (fields : list (string * Json))
| JArray (items : list Json).

(** [res.status(status).json(body)] *)
Record Response := { status : Z; body : Json }.

Definition message (status : Z) (text : string) : Response :=
  {| status := status; body := JObject [("message", JString text)] |}.

(** models/users.js *)
Record User := { _id : string; name : string; email : string; password : string }.

(** A user document after [.select('-password')]: what the gate puts in
    [req.user]. *)
Record ReqUser := { user_id : string; user_name : string; user_email : string }.

Definition select_without_password (u : User) : ReqUser :=
  {| user_id := u.(_id); user_name := u.(name); user_email := u.(email) |}.

(** models/notes.js; the [_id] and the timestamps the database adds are left
    out. *)
Record Note := { userId : string; title : string; content : string }.

(** [process.env] *)
Record Env := { JWT_SECRET : option string; PORT : option string }.

(** What a handler can see: the environment, the two collections and the
    clock in seconds ([Math.floor(Date.now() / 1000)]). *)
Record World := {
  env : Env;
  users : list User;
  notes : list Note;
  now : Z
}.

(** [req.headers.authorization] and the fields of the JSON body that the
    handlers read ([undefined] or a string). *)
Record Request := {
  authorization : option string;
  fields : gmap string string
}.

(** [User.findOne({email})] and [User.findById(id)]: the first document that
    matches, [null] when none does. *)
Definition findOne_email (e : string) (us : list User) : option User :=
  List.find (fun u => String.eqb u.(email) e) us.

Definition findById (i : string) (us : list User) : option User :=
  List.find (fun u => String.eqb u.(_id) i) us.

(** The guard written twice in the source, in server.js and in [login]:
    [!s || (typeof s === 'string' && s.trim() === '')]. *)
Definition secret_missing (s : option string) : bool :=
  negb (JS.truthy s)
  || match s with Some str => String.eqb (JS.trim str) "" | None => false end.

(** ** controllers/auth.controller.js: [login] *)

Definition config_error_response : Response :=
  {| status := 500;
     body := JObject [("Message", JString
       "Server configuration error: JWT_SECRET is missing. Please add JWT_SECRET to your .env file")] |}.

Definition login_ok_response (token : string) : Response :=
  {| status := 200;
     body := JObject [("message", JString "User successfully logged in");
                      ("Jwt token", JString token)] |}.

(** ['1h'] in seconds *)
Definition expiresIn_1h : Z := 3600.

Definition login {lib : Jwt.Lib} {bc : Bcrypt} (w : World) (req : Request) : Response :=
  let email_ := req.(fields) !! "email" in
  let password_ := req.(fields) !! "password" in
  match email_, password_ with
  | Some (String _ _ as e), Some (String _ _ as pw) =>
      match findOne_email e w.(users) with
      | None => message 400 "Invalid email or password"
      | Some user =>
          if negb (bcrypt_compare pw user.(password))
          then message 400 "Either email or Password wrong"
          else
            let jwtSecret := w.(env).(JWT_SECRET) in
            if secret_missing jwtSecret then config_error_response
            else match Jwt.sign user.(_id) jwtSecret expiresIn_1h w.(now) with
                 | inr token => login_ok_response token
                 | inl _ => message 500 "Server Error please try again later"
                 end
      end
  | _, _ => message 400 "missing required field"
  end.

(** ** middleware/auth.middleware.js *)

(** The middleware either answers itself or calls [next()] with [req.user]
    set. *)
Inductive GateResult :=
| Responded (r : Response)
| Next (user : ReqUser).

Definition not_logged_in : Response :=
  message 401 "Not authorized or NOt logged in system till Now".

Definition unauthorized : Response := message 401 "Unauthorized access token".

(** [authHeader.split(' ')[1]]; [None] is [undefined]. *)
Definition bearer_token (authHeader : string) : option string :=
  JS.split " " authHeader !! 1%nat.

Definition auth {lib : Jwt.Lib} (w : World) (req : Request) : GateResult :=
  match req.(authorization) with
  | Some (String _ _ as authHeader) =>
      let token := bearer_token authHeader in
      match Jwt.verify token w.(env).(JWT_SECRET) w.(now) with
      | inr payload =>
          match findById payload.(Jwt.id) w.(users) with
          | Some u => Next (select_without_password u)
          | None => Responded unauthorized
          end
      | inl _ => Responded unauthorized          (* the catch branch *)
      end
  | _ => Responded not_logged_in
  end.

(** ** server.js: start-up *)

Inductive Process :=
| Exit (code : Z)
| Listening (port : string) (mounted : list string).

(** [db_connects] says whether [connectDB()] succeeds; config/db.js exits
    with 1 when it does not. *)
Definition server (e : Env) (db_connects : bool) : Process :=
  if secret_missing e.(JWT_SECRET) then Exit 1
  else if db_connects
       then Listening (match e.(PORT) with
                       | Some (String _ _ as p) => p
                       | _ => "4300"
                       end)
                      ["/api/auth"; "/api/notes"]
       else Exit 1.

(** ** controllers/notes.controllers.js *)

Definition note_json (n : Note) : Json :=
  JObject [("userId", JString n.(userId)); ("title", JString n.(title));
           ("content", JString n.(content))].

Definition set_notes (w : World) (ns : list Note) : World :=
  {| env := w.(env); users := w.(users); notes := ns; now := w.(now) |}.

(** [Notes.create(doc)] adds one document; [Notes.find({userId})] returns the
    documents whose [userId] is the one asked for, in insertion order. *)
Definition Notes_create (doc : Note) (w : World) : World :=
  set_notes w (w.(notes) ++ [doc]).

Definition Notes_find (uid : string) (w : World) : list Note :=
  List.filter (fun n => String.eqb n.(userId) uid) w.(notes).

Definition createNote (w : World) (user : ReqUser) (req : Request) : World * Response :=
  match req.(fields) !! "title", req.(fields) !! "content" with
  | Some (String _ _ as t), Some (String _ _ as c) =>
      (Notes_create {| userId := user.(user_id); title := t; content := c |} w,
       {| status := 201;
          body := JObject [("message", JString "Note created");
                           ("notes", JObject [("title", JString t);
                                              ("content", JString c)])] |})
  | _, _ => (w, message 400 "Title or Content cannot be empty")
  end.

Definition getNotes (w : World) (user : ReqUser) : Response :=
  {| status := 200;
     body := JObject [("message", JString "Notes retrieved successfully");
                      ("notes", JArray (List.map note_json (Notes_find user.(user_id) w)))] |}.

(** ** routes/notes.route.js: [router.use(auth)], then the two handlers *)

Inductive NotesRoute := POST_create | GET_getNotes.

Definition notes_router {lib : Jwt.Lib} (route : NotesRoute) (w : World) (req : Request)
  : World * Response :=
  match auth w req with
  | Responded r => (w, r)
  | Next user =>
      match route with
      | POST_create => createNote w user req
      | GET_getNotes => (w, getNotes w user)
      end
  end.

(** ** The revocation store of the specification

    The repository has no logout route, no blacklist model and no sweep:
    LOGOUT_IMPLEMENTATION.md only sketches them as future work.  The three
    operations below follow section 4.3 of the specification, over the
    persisted layout of section 6, a mapping from token identity to expiry
    timestamp. *)
Module RevocationStore.

(** Modelled from the spec: [revoke(token, expiresAt)], the idempotent
    insert of the entry for [token] into the mapping from token identity to
    expiry timestamp; the repository has no such function. *)
Definition revoke (token : string) (expiresAt : Z) (s : gmap string Z) : gmap string Z :=
  <[token := expiresAt]> s.

(** Modelled from the spec: [isRevoked(token) -> bool], the existence
    check; the repository has no such function. *)
Definition isRevoked (token : string) (s : gmap string Z) : bool :=
  bool_decide (is_Some (s !! token)).

(** Modelled from the spec: [sweepExpired(now)] removes all entries whose
    [expiresAt <= now]; the repository has no such function. *)
Definition sweepExpired (now : Z) (s : gmap string Z) : gmap string Z :=
  filter (fun entry => now < entry.2) s.

(** Modelled from the spec: the calls a client of the store can make, used
    to speak about every point between a [revoke] and the next sweep. *)
Inductive Op :=
| Revoke (token : string) (expiresAt : Z)
| IsRevoked (token : string)
| SweepExpired (now : Z).

(** Modelled from the spec: the effect of one call on the store; the lookup
    leaves it as it is. *)
Definition apply (s : gmap string Z) (o : Op) : gmap string Z :=
  match o with
  | Revoke t e => revoke t e s
  | IsRevoked _ => s
  | SweepExpired n => sweepExpired n s
  end.

(** Modelled from the spec: a sequence of calls, first to last. *)
Definition run (ops : list Op) (s : gmap string Z) : gmap string Z :=
  fold_left apply ops s.

(** Modelled from the spec: the calls that are sweeps. *)
Definition is_sweep (o : Op) : bool :=
  match o with SweepExpired _ => true | _ => false end.

(** Modelled from the spec: an entry's [expiresAt] equals the [expiresAt]
    of the credential it revokes (section 3), so a call that revokes
    [token] again carries the same [expiresAt]. *)
Definition keeps_expiry (token : string) (expiresAt : Z) (o : Op) : bool :=
  match o with
  | Revoke t e => negb (String.eqb t token) || (e =? expiresAt)
  | _ => true
  end.

End RevocationStore.

(** ** What the proofs ask of the library at one payload and key

    For the real library these hold at every payload and every key: each
    segment is base64url text and decoding inverts encoding. *)
Module Contract.
Section AtOnePayload.
Context {lib : Jwt.Lib}.

Definition header_decodes : Prop :=
  Jwt.decode_header Jwt.header_HS256 = Some Jwt.HS256.

Definition payload_roundtrips (p : Jwt.Payload) : Prop :=
  Jwt.decode_payload (Jwt.encode_payload p) = Some p
  /\ Jwt.nonEmpty (Jwt.encode_payload p) = true
  /\ Jwt.allBase64Url (Jwt.encode_payload p) = true.

(** The third segment [jwt.sign] writes for payload [p] under [key]. *)
Definition signature_of (key : string) (p : Jwt.Payload) : string :=
  Jwt.hmac Jwt.HS256 key (Jwt.securedInput Jwt.header_HS256 (Jwt.encode_payload p)).

Definition signature_is_text (key : string) (p : Jwt.Payload) : Prop :=
  Jwt.nonEmpty (signature_of key p) = true
  /\ Jwt.allBase64Url (signature_of key p) = true.

(** A token put together by hand: the HS256 header, a payload segment and a
    signature segment. *)
Definition token_with (segment sig : string) : string :=
  Jwt.securedInput Jwt.header_HS256 segment +:+ "." +:+ sig.

End AtOnePayload.
End Contract.

(** The claims [login] signs for user [u] at clock [clock]. *)
Definition login_claims (u : User) (clock : Z) : Jwt.Payload :=
  {| Jwt.id := u.(_id); Jwt.iat := clock; Jwt.exp := clock + expiresIn_1h |}.

(** The request a client sends with its token: [Authorization: Bearer <token>]
    (API_ENDPOINTS.md). *)
Definition bearer (token : string) (body : gmap string string) : Request :=
  {| authorization := Some ("Bearer " +:+ token); fields := body |}.

(** [s.includes(c)], to say which separators a segment is free of. *)
Fixpoint has_char (c : ascii) (s : string) : bool :=
  match s with
  | EmptyString => false
  | String d r => Ascii.eqb d c || has_char c r
  end.

(** ** A small instance of the library and a sample state, to run the model *)
Module Demo.

Fixpoint keep_text (s : string) : string :=
  match s with
  | EmptyString => EmptyString
  | String c r => if Jwt.isBase64UrlChar c then String c (keep_text r) else keep_text r
  end.

Fixpoint digits (fuel : nat) (n : N) (acc : string) : string :=
  match fuel with
  | O => acc
  | S f =>
      let acc' := String (ascii_of_N (48 + n mod 10)) acc in
      if (n / 10 =? 0)%N then acc' else digits f (n / 10) acc'
  end.

Definition decimal (z : Z) : string := digits 40 (Z.to_N z) EmptyString.

Fixpoint number (s : string) (acc : N) : option Z :=
  match s with
  | EmptyString => Some (Z.of_N acc)
  | String c r =>
      let d := N_of_ascii c in
      if ((48 <=? d) && (d <=? 57))%N then number r (10 * acc + (d - 48))%N else None
  end.

Definition lib : Jwt.Lib := {|
  Jwt.hmac := fun _ key input => "mac" +:+ keep_text key +:+ keep_text input;
  Jwt.encode_payload := fun p =>
    p.(Jwt.id) +:+ "_" +:+ decimal p.(Jwt.iat) +:+ "_" +:+ decimal p.(Jwt.exp);
  Jwt.decode_payload := fun s =>
    match JS.split "_" s with
    | [i; a; e] =>
        match number a 0, number e 0 with
        | Some a', Some e' => Some {| Jwt.id := i; Jwt.iat := a'; Jwt.exp := e' |}
        | _, _ => None
        end
    | _ => None
    end;
  Jwt.decode_header := fun h =>
    if String.eqb h Jwt.header_HS256 then Some Jwt.HS256 else None
|}.

Definition bcrypt : Bcrypt :=
  {| bcrypt_compare := fun pw hash => String.eqb ("hashed" +:+ pw) hash |}.

Definition alice : User :=
  {| _id := "a11ce"; name := "Alice"; email := "alice@example.com";
     password := "hashedwonderland" |}.

Definition bob : User :=
  {| _id := "b0b"; name := "Bob"; email := "bob@example.com";
     password := "hashedbuilder" |}.

Definition world (secret : option string) (clock : Z) : World :=
  {| env := {| JWT_SECRET := secret; PORT := None |};
     users := [alice; bob];
     notes := [ {| userId := "b0b"; title := "plan"; content := "build" |} ];
     now := clock |}.

Definition login_request : Request :=
  {| authorization := None;
     fields := {[ "email" := "alice@example.com"; "password" := "wonderland" ]} |}.

(** The token [login] hands to Alice at clock 1000 under the key "s3cret". *)
Definition alice_token : string :=
  "eyJhbGciOiJIUzI1NiIsInR5cCI6IkpXVCJ9.a11ce_1000_4600.macs3creteyJhbGciOiJIUzI1NiIsInR5cCI6IkpXVCJ9a11ce_1000_4600".

(** What [jwt.decode] gives for Alice's token. *)
Definition alice_decoded : Jwt.Decoded :=
  {| Jwt.header := Jwt.HS256;
     Jwt.payload := {| Jwt.id := "a11ce"; Jwt.iat := 1000; Jwt.exp := 4600 |};
     Jwt.signature := "macs3creteyJhbGciOiJIUzI1NiIsInR5cCI6IkpXVCJ9a11ce_1000_4600" |}.

(** Alice's token with the subject rewritten to Bob's [_id] and the
    signature left as it was. *)
Definition tampered_token : string :=
  "eyJhbGciOiJIUzI1NiIsInR5cCI6IkpXVCJ9.b0b_1000_4600.macs3creteyJhbGciOiJIUzI1NiIsInR5cCI6IkpXVCJ9a11ce_1000_4600".

(** The state after Alice's document has been deleted. *)
Definition world_without_alice (secret : option string) (clock : Z) : World :=
  {| env := {| JWT_SECRET := secret; PORT := None |};
     users := [bob];
     notes := [ {| userId := "b0b"; title := "plan"; content := "build" |} ];
     now := clock |}.

Definition note_request (token : string) : Request :=
  bearer token {[ "title" := "list"; "content" := "milk" ]}.

End Demo.

(** ** controllers/auth.controller.js: [register] *)

(** [bcrypt.hash(data, rounds)] draws a salt of its own; the salt is an
    argument here. *)
Class BcryptHash := { bcrypt_hash : string -> Z -> string -> string }.

Definition register_ok_response (newId : string) : Response :=
  {| status := 200;
     body := JObject [("message", JString "User successfully registered");
                      ("UserId", JString newId)] |}.

Definition set_users (w : World) (us : list User) : World :=
  {| env := w.(env); users := us; notes := w.(notes); now := w.(now) |}.

(** [User.create(doc)] adds one document. *)
Definition User_create (doc : User) (w : World) : World :=
  set_users w (w.(users) ++ [doc]).

(** [objectId] is the [_id] the database driver gives the new document and
    [salt] the salt bcrypt draws. *)
Definition register {bh : BcryptHash} (objectId salt : string) (w : World) (req : Request)
  : World * Response :=
  match req.(fields) !! "name", req.(fields) !! "email", req.(fields) !! "password" with
  | Some (String _ _ as n), Some (String _ _ as e), Some (String _ _ as pw) =>
      match findOne_email e w.(users) with
      | Some _ => (w, message 400 "User already exists")
      | None =>
          let hashedPassword := bcrypt_hash pw 12 salt in
          let user := {| _id := objectId; name := n; email := e;
                         password := hashedPassword |} in
          (User_create user w, register_ok_response user.(_id))
      end
  | _, _, _ => (w, message 400 "missing required field")
  end.

(** ** The second start-up script (src/unnamed/part_001): no check of the
    secret, and only the auth routes are mounted. *)
Definition server_auth_only (e : Env) (db_connects : bool) : Process :=
  if db_connects
  then Listening (match e.(PORT) with
                  | Some (String _ _ as p) => p
                  | _ => "4300"
                  end)
                 ["/api/auth"]
  else Exit 1.

(** [[...s].every(f)] *)
Fixpoint every_char (f : ascii -> bool) (s : string) : bool :=
  match s with
  | EmptyString => true
  | String c r => f c && every_char f r
  end.

(** ** Sequences of requests

    What reaches the handlers over the life of a process: calls of
    [register], of [login] and of the two notes routes, with the clock moving
    in between. *)
Inductive Call :=
| Register (objectId salt : string) (req : Request)
| Login (req : Request)
| NotesCall (route : NotesRoute) (req : Request)
| ClockAt (seconds : Z).

Definition set_now (w : World) (t : Z) : World :=
  {| env := w.(env); users := w.(users); notes := w.(notes); now := t |}.

(** The state a call leaves behind; [login] only answers. *)
Definition serve {lib : Jwt.Lib} {bh : BcryptHash} (w : World) (c : Call) : World :=
  match c with
  | Register objectId salt req => fst (register objectId salt w req)
  | Login _ => w
  | NotesCall route req => fst (notes_router route w req)
  | ClockAt t => set_now w t
  end.

Definition serve_all {lib : Jwt.Lib} {bh : BcryptHash} (calls : list Call) (w : World) : World :=
  fold_left serve calls w.


(** ** More sample data *)
Module Sample.

Definition hasher : BcryptHash :=
  {| bcrypt_hash := fun pw _ _ => "hashed" +:+ pw |}.

Definition carol_request : Request :=
  {| authorization := None;
     fields := {[ "name" := "Carol"; "email" := "carol@example.com";
                  "password" := "pass" ]} |}.

Definition carol : User :=
  {| _id := "c4r01"; name := "Carol"; email := "carol@example.com";
     password := "hashedpass" |}.

(** The state after Carol has registered. *)
Definition world_with_carol (secret : option string) (clock : Z) : World :=
  set_users (Demo.world secret clock) [Demo.alice; Demo.bob; carol].

(** The token [login] hands to Carol at clock 1000 under the key "s3cret". *)
Definition carol_token : string :=
  Contract.token_with "c4r01_1000_4600"
    (Contract.signature_of (lib := Demo.lib) "s3cret" (login_claims carol 1000)).

(** Two failed logins: Alice's email with a wrong password, and an email
    nobody registered. *)
Definition wrong_password_request : Request :=
  {| authorization := None;
     fields := {[ "email" := "alice@example.com"; "password" := "guess" ]} |}.

Definition unknown_email_request : Request :=
  {| authorization := None;
     fields := {[ "email" := "mallory@example.com"; "password" := "guess" ]} |}.

End Sample.

Example demo_login :
  login (lib := Demo.lib) (bc := Demo.bcrypt) (Demo.world (Some "s3cret") 1000) Demo.login_request
  = login_ok_response Demo.alice_token.
Proof. vm_compute. reflexivity. Qed.

(** * Properties *)

(** ** Strings *)

Lemma split_not_nil sep s : JS.split sep s <> [].
Proof.
  destruct s as [|c r]; simpl; [discriminate|].
  destruct (Ascii.eqb c sep); [discriminate|].
  destruct (JS.split sep r); discriminate.
Qed.

Lemma split_without_separator sep s :
  has_char sep s = false -> JS.split sep s = [s].
Proof.
  induction s as [|c r IH]; simpl; [reflexivity|].
  intros Hc. apply orb_false_elim in Hc as [Hhd Htl].
  rewrite Hhd, (IH Htl). reflexivity.
Qed.

Lemma split_at_separator sep a b :
  has_char sep a = false ->
  JS.split sep (a +:+ String sep b) = a :: JS.split sep b.
Proof.
  induction a as [|c r IH]; simpl.
  - intros _. rewrite Ascii.eqb_refl. reflexivity.
  - intros Hc. apply orb_false_elim in Hc as [Hhd Htl].
    rewrite Hhd, (IH Htl). reflexivity.
Qed.

Lemma text_char_not (c : ascii) (sep : ascii) :
  Jwt.isBase64UrlChar sep = false ->
  Jwt.isBase64UrlChar c = true -> Ascii.eqb c sep = false.
Proof.
  intros Hsep Hc. destruct (Ascii.eqb c sep) eqn:E; [|reflexivity].
  apply Ascii.eqb_eq in E. congruence.
Qed.

Lemma text_has_no sep s :
  Jwt.isBase64UrlChar sep = false ->
  Jwt.allBase64Url s = true -> has_char sep s = false.
Proof.
  intros Hsep. induction s as [|c r IH]; simpl; [reflexivity|].
  intros Hs. apply andb_prop in Hs as [Hc Hr].
  rewrite (text_char_not c sep Hsep Hc), (IH Hr). reflexivity.
Qed.

Lemma append_assoc (a b c : string) : (a +:+ b) +:+ c = a +:+ (b +:+ c).
Proof.
  induction a as [|d r IH]; [reflexivity|].
  change (String d ((r +:+ b) +:+ c) = String d (r +:+ (b +:+ c))).
  rewrite IH. reflexivity.
Qed.

Lemma has_char_app c a b :
  has_char c (a +:+ b) = has_char c a || has_char c b.
Proof.
  induction a as [|d r IH]; simpl; [reflexivity|].
  rewrite IH, orb_assoc. reflexivity.
Qed.

Lemma text_not_white c : Jwt.isBase64UrlChar c = true -> JS.isWhiteSpace c = false.
Proof.
  unfold Jwt.isBase64UrlChar, JS.isWhiteSpace.
  generalize (N_of_ascii c). intros n Hn.
  repeat match type of Hn with
         | (_ || _)%bool = true => apply orb_prop in Hn as [Hn|Hn]
         | (_ && _)%bool = true => apply andb_prop in Hn as [? ?]
         end;
  repeat match goal with
         | h : (_ <=? _)%N = true |- _ => apply N.leb_le in h
         | h : (_ =? _)%N = true |- _ => apply N.eqb_eq in h
         end;
  repeat match goal with
         | |- (_ || _)%bool = false => apply orb_false_intro
         | |- (_ && _)%bool = false => apply andb_false_iff
         end;
  try (apply N.eqb_neq; lia);
  try (left; apply N.leb_gt; lia);
  try (right; apply N.leb_gt; lia).
Qed.

Lemma reverse_text acc s :
  Jwt.allBase64Url (JS.reverse acc s) = Jwt.allBase64Url acc && Jwt.allBase64Url s.
Proof.
  revert acc. induction s as [|c r IH]; intros acc; simpl.
  - rewrite andb_true_r. reflexivity.
  - rewrite IH. simpl. rewrite !andb_assoc. f_equal. apply andb_comm.
Qed.

Lemma reverse_nonEmpty acc s :
  Jwt.nonEmpty (JS.reverse acc s) = Jwt.nonEmpty acc || Jwt.nonEmpty s.
Proof.
  revert acc. induction s as [|c r IH]; intros acc; simpl.
  - rewrite orb_false_r. reflexivity.
  - rewrite IH. simpl. rewrite orb_true_r. reflexivity.
Qed.

Lemma trimStart_text s : Jwt.allBase64Url s = true -> JS.trimStart s = s.
Proof.
  destruct s as [|c r]; simpl; [reflexivity|].
  intros Hs. apply andb_prop in Hs as [Hc _].
  rewrite (text_not_white c Hc). reflexivity.
Qed.

Lemma trim_text s :
  Jwt.nonEmpty s = true -> Jwt.allBase64Url s = true ->
  String.eqb (JS.trim s) "" = false.
Proof.
  intros Hne Hs. unfold JS.trim, JS.trimEnd.
  rewrite (trimStart_text s Hs).
  rewrite (trimStart_text (JS.reverse "" s)) by (rewrite reverse_text; exact Hs).
  assert (Hn : Jwt.nonEmpty (JS.reverse "" (JS.reverse "" s)) = true).
  { rewrite !reverse_nonEmpty. simpl. exact Hne. }
  destruct (JS.reverse "" (JS.reverse "" s)); [discriminate|reflexivity].
Qed.

(** ** [jwt.sign] and [jwt.verify] *)

Section JwtFacts.
Context {lib : Jwt.Lib}.

Lemma split_three_segments h p s :
  Jwt.allBase64Url h = true -> Jwt.allBase64Url p = true -> Jwt.allBase64Url s = true ->
  JS.split "." (Jwt.securedInput h p +:+ "." +:+ s) = [h; p; s].
Proof.
  intros Hh Hp Hs. unfold Jwt.securedInput.
  rewrite append_assoc.
  change (JS.split "." (h +:+ String "." (p +:+ String "." s)) = [h; p; s]).
  rewrite split_at_separator by (apply text_has_no; [reflexivity|exact Hh]).
  rewrite split_at_separator by (apply text_has_no; [reflexivity|exact Hp]).
  rewrite split_without_separator by (apply text_has_no; [reflexivity|exact Hs]).
  reflexivity.
Qed.

(** What [verify] answers on three base64url segments that decode, under a
    key that is there. *)
Lemma verify_segments h p s alg pl k key clock :
  Jwt.isValidJws h p s = true -> Jwt.nonEmpty s = true ->
  Jwt.decode_header h = Some alg -> Jwt.decode_payload p = Some pl ->
  Jwt.verify (Some (Jwt.securedInput h p +:+ "." +:+ s)) (Some (String k key)) clock
  = if negb (Jwt.isHmacAlgorithm alg) then inl Jwt.InvalidAlgorithm
    else if negb (String.eqb s (Jwt.hmac alg (String k key) (Jwt.securedInput h p)))
    then inl Jwt.InvalidSignature
    else if pl.(Jwt.exp) <=? clock then inl (Jwt.TokenExpired pl.(Jwt.exp))
    else inr pl.
Proof.
  intros Hjws Hne Hh Hp.
  pose proof Hjws as Hv. unfold Jwt.isValidJws in Hv.
  repeat (apply andb_prop in Hv as [Hv ?]).
  assert (Hsplit : JS.split "." (Jwt.securedInput h p +:+ "." +:+ s) = [h; p; s])
    by (apply split_three_segments; assumption).
  unfold Jwt.verify, Jwt.decode, Jwt.jws_verify.
  destruct (Jwt.securedInput h p +:+ "." +:+ s) as [|c0 t0] eqn:Etok.
  { simpl in Hsplit. discriminate. }
  rewrite Hsplit. simpl length. simpl nth. cbn [Nat.eqb negb].
  rewrite Hjws, Hh, Hp. cbn [Jwt.header Jwt.payload].
  rewrite (trim_text s Hne) by assumption. cbn [negb].
  reflexivity.
Qed.

(** A token that [verify] accepts at one time is refused with
    [TokenExpired] from its [exp] on. *)
Lemma verify_expires tok secret t0 clock pl :
  Jwt.verify tok secret t0 = inr pl ->
  pl.(Jwt.exp) <= clock ->
  Jwt.verify tok secret clock = inl (Jwt.TokenExpired pl.(Jwt.exp)).
Proof.
  unfold Jwt.verify. intros Hok Hexp.
  destruct tok as [[|c t]|]; try discriminate.
  destruct (negb (Nat.eqb (length (JS.split "." (String c t))) 3)); try discriminate.
  destruct (Jwt.decode (String c t)) as [d|]; try discriminate.
  destruct secret as [[|k key]|];
    try (destruct (negb (String.eqb (JS.trim (nth 2 (JS.split "." (String c t)) "")) ""));
         discriminate).
  destruct (negb (negb (String.eqb (JS.trim (nth 2 (JS.split "." (String c t)) "")) "")));
    try discriminate.
  destruct (negb (Jwt.isHmacAlgorithm (Jwt.header d))); try discriminate.
  destruct (negb (Jwt.jws_verify (String c t) (Jwt.header d) (String k key))); try discriminate.
  destruct (Jwt.exp (Jwt.payload d) <=? t0); try discriminate.
  injection Hok as <-.
  apply Z.leb_le in Hexp. rewrite Hexp. reflexivity.
Qed.

(** [verify] never accepts a token at or after the [exp] it carries. *)
Lemma verify_accepts_before_exp tok secret clock pl :
  Jwt.verify tok secret clock = inr pl -> clock < pl.(Jwt.exp).
Proof.
  intros Hok. destruct (Z.lt_ge_cases clock pl.(Jwt.exp)) as [Hlt|Hge]; [exact Hlt|].
  rewrite (verify_expires tok secret clock clock pl Hok Hge) in Hok. discriminate.
Qed.

End JwtFacts.

(** ** The session gate *)

Section GateFacts.
Context {lib : Jwt.Lib}.

Lemma header_is_text :
  Jwt.nonEmpty Jwt.header_HS256 = true /\ Jwt.allBase64Url Jwt.header_HS256 = true.
Proof. split; reflexivity. Qed.

Lemma bearer_token_of_bearer tok :
  has_char " " tok = false -> bearer_token ("Bearer " +:+ tok) = Some tok.
Proof.
  intros Hsp. unfold bearer_token.
  change ("Bearer " +:+ tok) with ("Bearer" +:+ String " " tok).
  rewrite split_at_separator by reflexivity.
  rewrite (split_without_separator " " tok Hsp). reflexivity.
Qed.

(** With a header that is there, the gate is [jwt.verify] on the second
    word followed by [User.findById]. *)
Lemma auth_presented w c h body :
  auth w {| authorization := Some (String c h); fields := body |}
  = match Jwt.verify (bearer_token (String c h)) w.(env).(JWT_SECRET) w.(now) with
    | inr pl => match findById pl.(Jwt.id) w.(users) with
                | Some u => Next (select_without_password u)
                | None => Responded unauthorized
                end
    | inl _ => Responded unauthorized
    end.
Proof. reflexivity. Qed.

(** The token [jwt.sign] writes is one word: it has no space in it. *)
Lemma signed_token_one_word key p :
  Contract.payload_roundtrips p -> Contract.signature_is_text key p ->
  has_char " " (Jwt.securedInput Jwt.header_HS256 (Jwt.encode_payload p)
                +:+ "." +:+ Contract.signature_of key p) = false.
Proof.
  intros (_ & _ & Hp) (_ & Hs). unfold Jwt.securedInput.
  rewrite !has_char_app.
  rewrite (text_has_no " " Jwt.header_HS256) by reflexivity.
  rewrite (text_has_no " " (Jwt.encode_payload p)) by (reflexivity || exact Hp).
  rewrite (text_has_no " " (Contract.signature_of key p)) by (reflexivity || exact Hs).
  reflexivity.
Qed.

(** [verify] accepts what [sign] wrote, under the same key, until [exp]. *)
Lemma verify_signed k key p clock :
  Contract.header_decodes -> Contract.payload_roundtrips p ->
  Contract.signature_is_text (String k key) p ->
  clock < p.(Jwt.exp) ->
  Jwt.verify (Some (Jwt.securedInput Jwt.header_HS256 (Jwt.encode_payload p)
                    +:+ "." +:+ Contract.signature_of (String k key) p))
             (Some (String k key)) clock
  = inr p.
Proof.
  intros Hh (Hdec & Hne & Htext) (Hsne & Hstext) Hclock.
  rewrite (verify_segments _ _ _ Jwt.HS256 p).
  - cbn [Jwt.isHmacAlgorithm negb]. unfold Contract.signature_of.
    rewrite String.eqb_refl. cbn [negb].
    apply Z.leb_gt in Hclock. rewrite Hclock. reflexivity.
  - unfold Jwt.isValidJws. rewrite Hne, Htext, Hstext. reflexivity.
  - exact Hsne.
  - exact Hh.
  - exact Hdec.
Qed.

End GateFacts.

(** ** [login] *)

Section LoginFacts.
Context {lib : Jwt.Lib} {bc : Bcrypt}.

(** The only way to the 200 answer: both fields given, the user found, the
    password accepted, the secret present and not blank; the token is the
    one [jwt.sign] writes for the user's [_id] at the current clock. *)
Lemma login_ok_inv w req token :
  login w req = login_ok_response token ->
  exists e pw u k key,
    req.(fields) !! "email" = Some e /\ req.(fields) !! "password" = Some pw
    /\ findOne_email e w.(users) = Some u
    /\ bcrypt_compare pw u.(password) = true
    /\ w.(env).(JWT_SECRET) = Some (String k key)
    /\ secret_missing w.(env).(JWT_SECRET) = false
    /\ token = Jwt.securedInput Jwt.header_HS256
                 (Jwt.encode_payload {| Jwt.id := u.(_id); Jwt.iat := w.(now);
                                        Jwt.exp := w.(now) + expiresIn_1h |})
               +:+ "." +:+
               Contract.signature_of (String k key)
                 {| Jwt.id := u.(_id); Jwt.iat := w.(now);
                    Jwt.exp := w.(now) + expiresIn_1h |}.
Proof.
  unfold login. intros Hok.
  destruct (req.(fields) !! "email") as [[|c e]|] eqn:Ee; try discriminate.
  destruct (req.(fields) !! "password") as [[|c' pw]|] eqn:Ep; try discriminate.
  destruct (findOne_email (String c e) w.(users)) as [u|] eqn:Eu; try discriminate.
  destruct (bcrypt_compare (String c' pw) u.(password)) eqn:Eb; try discriminate.
  cbn [negb] in Hok.
  destruct (secret_missing w.(env).(JWT_SECRET)) eqn:Es; try discriminate.
  destruct w.(env).(JWT_SECRET) as [[|k key]|] eqn:Ek; try discriminate.
  cbn [Jwt.sign] in Hok. injection Hok as Htok.
  exists (String c e), (String c' pw), u, k, key.
  repeat split; try assumption; try reflexivity. symmetry. exact Htok.
Qed.

End LoginFacts.

(** ** Issuance and verification *)

(** C1. A credential issued by [login] for a user is accepted by the gate,
    which resolves it to that user's identity, as long as the verifying
    process holds the same secret, the user is still in the collection and
    the clock is before the credential's [exp] (issue time plus one hour). *)
Theorem login_then_auth_roundtrip {lib : Jwt.Lib} {bc : Bcrypt}
    (w w' : World) (req : Request) (e key token : string) (u : User)
    (body : gmap string string) :
  Contract.header_decodes ->
  Contract.payload_roundtrips (login_claims u w.(now)) ->
  Contract.signature_is_text key (login_claims u w.(now)) ->
  w.(env).(JWT_SECRET) = Some key ->
  req.(fields) !! "email" = Some e ->
  findOne_email e w.(users) = Some u ->
  login w req = login_ok_response token ->
  w'.(env).(JWT_SECRET) = w.(env).(JWT_SECRET) ->
  findById u.(_id) w'.(users) = Some u ->
  w'.(now) < w.(now) + expiresIn_1h ->
  Jwt.verify (Some token) w'.(env).(JWT_SECRET) w'.(now) = inr (login_claims u w.(now))
  /\ auth w' (bearer token body) = Next (select_without_password u).
Proof.
  intros Hh Hp Hs Hkey Hemail Hfind Hlogin Hsame Hstill Hclock.
  destruct (login_ok_inv w req token Hlogin)
    as (e' & pw & u' & k & key' & He' & _ & Hu' & _ & Hk' & _ & Htok).
  assert (e' = e) by congruence. subst e'.
  assert (u' = u) by congruence. subst u'.
  assert (key = String k key') by congruence. subst key.
  fold (login_claims u w.(now)) in Htok.
  assert (Hverify : Jwt.verify (Some token) w'.(env).(JWT_SECRET) w'.(now)
                    = inr (login_claims u w.(now))).
  { rewrite Hsame, Hkey, Htok. apply verify_signed; assumption. }
  split; [exact Hverify|].
  unfold bearer.
  change ("Bearer " +:+ token) with (String "B" ("earer " +:+ token)).
  rewrite auth_presented.
  change (String "B" ("earer " +:+ token)) with ("Bearer " +:+ token).
  rewrite bearer_token_of_bearer
    by (rewrite Htok; apply signed_token_one_word; assumption).
  rewrite Hverify. cbn [login_claims Jwt.id]. rewrite Hstill. reflexivity.
Qed.

(** C4. A token whose [exp] is not in the future is refused: the gate answers
    401 whatever else holds of the token, and when the token is otherwise
    good (well formed and correctly signed, so that [verify] accepted it at
    some earlier clock) the error [verify] throws is [TokenExpired]. *)
Theorem expired_token_rejected {lib : Jwt.Lib}
    (w : World) (req : Request) (h tok : string) (d : Jwt.Decoded) :
  req.(authorization) = Some h ->
  bearer_token h = Some tok ->
  Jwt.decode tok = Some d ->
  d.(Jwt.payload).(Jwt.exp) <= w.(now) ->
  (exists err, Jwt.verify (Some tok) w.(env).(JWT_SECRET) w.(now) = inl err)
  /\ auth w req = Responded unauthorized
  /\ (forall t0 pl,
        Jwt.verify (Some tok) w.(env).(JWT_SECRET) t0 = inr pl ->
        Jwt.verify (Some tok) w.(env).(JWT_SECRET) w.(now)
        = inl (Jwt.TokenExpired d.(Jwt.payload).(Jwt.exp))).
Proof.
  intros Hreq Hbearer Hdec Hexp.
  assert (Haccepted : forall t0 pl,
             Jwt.verify (Some tok) w.(env).(JWT_SECRET) t0 = inr pl -> pl = d.(Jwt.payload)).
  { intros t0 pl. unfold Jwt.verify.
    destruct tok as [|c t]; [discriminate|].
    rewrite Hdec.
    repeat match goal with
           | |- (if ?b then _ else _) = _ -> _ => destruct b
           | |- match ?x with _ => _ end = _ -> _ => destruct x
           end; try discriminate.
    intros [= <-]. reflexivity. }
  assert (Hfails : exists err, Jwt.verify (Some tok) w.(env).(JWT_SECRET) w.(now) = inl err).
  { destruct (Jwt.verify (Some tok) w.(env).(JWT_SECRET) w.(now)) as [err|pl] eqn:E.
    - exists err. reflexivity.
    - pose proof (verify_accepts_before_exp _ _ _ _ E) as Hlt.
      rewrite (Haccepted _ _ E) in Hlt. lia. }
  split; [exact Hfails|]. split.
  - destruct h as [|c r]; [discriminate|].
    destruct req as [a f]. cbn in Hreq. subst a.
    rewrite auth_presented, Hbearer.
    destruct Hfails as [err ->]. reflexivity.
  - intros t0 pl Hok.
    rewrite <- (Haccepted _ _ Hok).
    apply (verify_expires _ _ t0); [exact Hok|].
    rewrite (Haccepted _ _ Hok). exact Hexp.
Qed.

(** C5. Take the signature the signer wrote for payload [p] and put it under
    another payload segment, one that decodes to some [p'] (another subject,
    another expiry).  When that signature is not the one the secret gives
    for the new segment, [verify] throws [InvalidSignature], at any clock,
    and the gate answers 401. *)
Theorem tampered_payload_rejected {lib : Jwt.Lib}
    (w : World) (key segment : string) (p p' : Jwt.Payload) (body : gmap string string) :
  Contract.header_decodes ->
  Jwt.nonEmpty segment = true ->
  Jwt.allBase64Url segment = true ->
  Jwt.decode_payload segment = Some p' ->
  Contract.signature_is_text key p ->
  w.(env).(JWT_SECRET) = Some key ->
  JS.truthy (Some key) = true ->
  Jwt.hmac Jwt.HS256 key (Jwt.securedInput Jwt.header_HS256 segment)
  <> Contract.signature_of key p ->
  Jwt.verify (Some (Contract.token_with segment (Contract.signature_of key p)))
             w.(env).(JWT_SECRET) w.(now)
  = inl Jwt.InvalidSignature
  /\ auth w (bearer (Contract.token_with segment (Contract.signature_of key p)) body)
     = Responded unauthorized.
Proof.
  intros Hh Hne Htext Hdec (Hsne & Hstext) Hkey Htruthy Hdiff.
  destruct key as [|k key]; [discriminate|].
  assert (Hverify :
            Jwt.verify (Some (Contract.token_with segment (Contract.signature_of (String k key) p)))
                       w.(env).(JWT_SECRET) w.(now) = inl Jwt.InvalidSignature).
  { rewrite Hkey. unfold Contract.token_with.
    rewrite (verify_segments _ _ _ Jwt.HS256 p').
    - cbn [Jwt.isHmacAlgorithm negb].
      apply not_eq_sym, String.eqb_neq in Hdiff. rewrite Hdiff. reflexivity.
    - unfold Jwt.isValidJws. rewrite Hne, Htext, Hstext. reflexivity.
    - exact Hsne.
    - exact Hh.
    - exact Hdec. }
  split; [exact Hverify|].
  unfold bearer.
  set (tok := Contract.token_with segment (Contract.signature_of (String k key) p)) in *.
  change ("Bearer " +:+ tok) with (String "B" ("earer " +:+ tok)).
  rewrite auth_presented.
  change (String "B" ("earer " +:+ tok)) with ("Bearer " +:+ tok).
  rewrite bearer_token_of_bearer.
  - rewrite Hverify. reflexivity.
  - subst tok. unfold Contract.token_with, Jwt.securedInput.
    rewrite !has_char_app.
    rewrite (text_has_no " " Jwt.header_HS256) by reflexivity.
    rewrite (text_has_no " " segment) by (reflexivity || exact Htext).
    rewrite (text_has_no " " (Contract.signature_of (String k key) p))
      by (reflexivity || exact Hstext).
    reflexivity.
Qed.

(** C3. Whatever makes [jwt.verify] throw on a presented token (no second
    word in the header, not three segments, a segment that does not decode,
    a missing or wrong signature, an expired token), the gate gives the same
    answer: status 401 with the one body "Unauthorized access token".  The
    gate has no revocation lookup, so no failure of a Revoked kind exists. *)
Theorem verification_failures_look_alike {lib : Jwt.Lib}
    (w1 w2 : World) (req1 req2 : Request) (h1 h2 : string) (e1 e2 : Jwt.Error) :
  req1.(authorization) = Some h1 -> JS.truthy (Some h1) = true ->
  req2.(authorization) = Some h2 -> JS.truthy (Some h2) = true ->
  Jwt.verify (bearer_token h1) w1.(env).(JWT_SECRET) w1.(now) = inl e1 ->
  Jwt.verify (bearer_token h2) w2.(env).(JWT_SECRET) w2.(now) = inl e2 ->
  auth w1 req1 = Responded unauthorized /\ auth w2 req2 = auth w1 req1.
Proof.
  intros Hr1 Ht1 Hr2 Ht2 He1 He2.
  destruct req1 as [a1 f1], req2 as [a2 f2]. cbn in Hr1, Hr2. subst a1 a2.
  destruct h1 as [|c1 r1]; [discriminate|].
  destruct h2 as [|c2 r2]; [discriminate|].
  rewrite !auth_presented, He1, He2. split; reflexivity.
Qed.

(** A request without an [Authorization] header (or with an empty one) never
    reaches [jwt.verify]; it has an answer of its own. *)
Lemma missing_header_has_its_own_answer {lib : Jwt.Lib} (w : World) (body : gmap string string) :
  auth w {| authorization := None; fields := body |} = Responded not_logged_in
  /\ auth w {| authorization := Some ""; fields := body |} = Responded not_logged_in
  /\ not_logged_in <> unauthorized.
Proof. repeat split. discriminate. Qed.

(** C10. A token that [verify] accepts but whose subject is no user's [_id]
    gets the 401 answer of a token that fails verification; the router
    then runs no handler and leaves the state as it was. *)
Theorem unresolved_subject_rejected {lib : Jwt.Lib}
    (w : World) (req : Request) (h tok : string) (pl : Jwt.Payload) (route : NotesRoute) :
  req.(authorization) = Some h ->
  bearer_token h = Some tok ->
  Jwt.verify (Some tok) w.(env).(JWT_SECRET) w.(now) = inr pl ->
  findById pl.(Jwt.id) w.(users) = None ->
  auth w req = Responded unauthorized
  /\ notes_router route w req = (w, unauthorized)
  /\ (forall w2 req2 h2 err,
        req2.(authorization) = Some h2 -> JS.truthy (Some h2) = true ->
        Jwt.verify (bearer_token h2) w2.(env).(JWT_SECRET) w2.(now) = inl err ->
        auth w2 req2 = auth w req).
Proof.
  intros Hreq Hbearer Hok Hnone.
  assert (Hauth : auth w req = Responded unauthorized).
  { destruct h as [|c r]; [discriminate|].
    destruct req as [a f]. cbn in Hreq. subst a.
    rewrite auth_presented, Hbearer, Hok, Hnone. reflexivity. }
  split; [exact Hauth|]. split.
  - unfold notes_router. rewrite Hauth. reflexivity.
  - intros w2 req2 h2 err Hr2 Ht2 He2. rewrite Hauth.
    destruct req2 as [a2 f2]. cbn in Hr2. subst a2.
    destruct h2 as [|c2 r2]; [discriminate|].
    rewrite auth_presented, He2. reflexivity.
Qed.

(** C2, as the code has it.  The gate makes no revocation lookup.  Every
    presented token goes through [jwt.verify] and the subject lookup and
    nothing else: a token that is in a revocation store, is correctly signed
    and unexpired and whose subject resolves is let through, and when the
    gate does turn a presented token away it is with the one 401 answer,
    because [verify] threw or the subject did not resolve. *)
Theorem auth_decides_without_revocation {lib : Jwt.Lib}
    (store : gmap string Z) (w : World) (req : Request) (h tok : string) :
  req.(authorization) = Some h ->
  bearer_token h = Some tok ->
  RevocationStore.isRevoked tok store = true ->
  (forall pl u,
      Jwt.verify (Some tok) w.(env).(JWT_SECRET) w.(now) = inr pl ->
      findById pl.(Jwt.id) w.(users) = Some u ->
      auth w req = Next (select_without_password u))
  /\ (forall r,
        auth w req = Responded r ->
        r = unauthorized
        /\ ((exists err, Jwt.verify (Some tok) w.(env).(JWT_SECRET) w.(now) = inl err)
            \/ (exists pl, Jwt.verify (Some tok) w.(env).(JWT_SECRET) w.(now) = inr pl
                           /\ findById pl.(Jwt.id) w.(users) = None))).
Proof.
  intros Hreq Hbearer _.
  destruct h as [|c r0]; [discriminate|].
  destruct req as [a f]. cbn in Hreq. subst a.
  rewrite auth_presented, Hbearer. split.
  - intros pl u -> ->. reflexivity.
  - intros r.
    destruct (Jwt.verify (Some tok) w.(env).(JWT_SECRET) w.(now)) as [err|pl].
    + intros [= <-]. split; [reflexivity|]. left. exists err. reflexivity.
    + destruct (findById pl.(Jwt.id) w.(users)) as [u|] eqn:Eu.
      * discriminate.
      * intros [= <-]. split; [reflexivity|]. right. exists pl. split; [reflexivity|exact Eu].
Qed.

(** ** The signing secret *)

Section SecretFacts.
Context {lib : Jwt.Lib} {bc : Bcrypt}.

(** Past the credential checks, [login] looks at the secret on every call. *)
Lemma login_after_credentials w req e pw u :
  req.(fields) !! "email" = Some e -> JS.truthy (Some e) = true ->
  req.(fields) !! "password" = Some pw -> JS.truthy (Some pw) = true ->
  findOne_email e w.(users) = Some u ->
  bcrypt_compare pw u.(password) = true ->
  login w req
  = if secret_missing w.(env).(JWT_SECRET) then config_error_response
    else match Jwt.sign u.(_id) w.(env).(JWT_SECRET) expiresIn_1h w.(now) with
         | inr token => login_ok_response token
         | inl _ => message 500 "Server Error please try again later"
         end.
Proof.
  intros He Hte Hp Htp Hu Hb. unfold login. rewrite He, Hp.
  destruct e as [|c e]; [discriminate|].
  destruct pw as [|c' pw]; [discriminate|].
  rewrite Hu, Hb. reflexivity.
Qed.

Lemma login_config_error_inv w req :
  login w req = config_error_response -> secret_missing w.(env).(JWT_SECRET) = true.
Proof.
  unfold login.
  destruct (req.(fields) !! "email") as [[|c e]|]; try discriminate.
  destruct (req.(fields) !! "password") as [[|c' pw]|]; try discriminate.
  destruct (findOne_email (String c e) w.(users)) as [u|]; try discriminate.
  destruct (negb (bcrypt_compare (String c' pw) u.(password))); try discriminate.
  destruct (secret_missing w.(env).(JWT_SECRET)); [reflexivity|].
  destruct (Jwt.sign u.(_id) w.(env).(JWT_SECRET) expiresIn_1h w.(now)); discriminate.
Qed.

Lemma sign_with_secret subject secret ttl clock :
  secret_missing secret = false ->
  exists token, Jwt.sign subject secret ttl clock = inr token.
Proof.
  destruct secret as [[|k key]|]; try discriminate.
  intros _. eexists. reflexivity.
Qed.

End SecretFacts.

(** C6, as the code has it.  A secret that is absent, empty or blank stops
    the process at start-up with exit code 1, before anything is mounted or
    listened on; a process that listens has a secret.  [login] looks at the
    secret again on every call that gets past the credential checks and
    answers 500 with the configuration message exactly when the secret is
    absent, empty or blank; with a secret that is there, it issues a token. *)
Theorem secret_checked_at_startup_and_in_login {lib : Jwt.Lib} {bc : Bcrypt}
    (e : Env) (db_connects : bool) (w : World) (req : Request)
    (mail pw : string) (u : User) :
  req.(fields) !! "email" = Some mail -> JS.truthy (Some mail) = true ->
  req.(fields) !! "password" = Some pw -> JS.truthy (Some pw) = true ->
  findOne_email mail w.(users) = Some u ->
  bcrypt_compare pw u.(password) = true ->
  (secret_missing e.(JWT_SECRET) = true -> server e db_connects = Exit 1)
  /\ (forall port mounted,
        server e db_connects = Listening port mounted ->
        secret_missing e.(JWT_SECRET) = false)
  /\ (login w req = config_error_response <-> secret_missing w.(env).(JWT_SECRET) = true)
  /\ (secret_missing w.(env).(JWT_SECRET) = false ->
      exists token, login w req = login_ok_response token).
Proof.
  intros He Hte Hp Htp Hu Hb.
  pose proof (login_after_credentials w req mail pw u He Hte Hp Htp Hu Hb) as Hlogin.
  split; [|split; [|split]].
  - intros Hm. unfold server. rewrite Hm. reflexivity.
  - intros port mounted. unfold server.
    destruct (secret_missing e.(JWT_SECRET)); [discriminate|reflexivity].
  - split.
    + apply login_config_error_inv.
    + intros Hm. rewrite Hlogin, Hm. reflexivity.
  - intros Hm. rewrite Hlogin, Hm.
    destruct (sign_with_secret u.(_id) w.(env).(JWT_SECRET) expiresIn_1h w.(now) Hm)
      as [token ->].
    exists token. reflexivity.
Qed.

(** ** Notes *)

(** C9. Behind the gate, the notes routes touch only the caller's notes.
    [POST /create] leaves the collection as it was or adds one note whose
    [userId] is the identity the gate resolved; [GET /getNotes] changes
    nothing and answers with exactly the stored notes whose [userId] is that
    identity; a request the gate turns away changes nothing. *)
Theorem notes_scoped_to_caller {lib : Jwt.Lib}
    (route : NotesRoute) (w w' : World) (req : Request) (r : Response) :
  notes_router route w req = (w', r) ->
  w'.(users) = w.(users)
  /\ (forall refused, auth w req = Responded refused -> w' = w /\ r = refused)
  /\ (forall user,
        auth w req = Next user -> route = POST_create ->
        (w' = w /\ r = message 400 "Title or Content cannot be empty")
        \/ (exists t c,
              req.(fields) !! "title" = Some t /\ req.(fields) !! "content" = Some c
              /\ w'.(notes) = w.(notes)
                              ++ [ {| userId := user.(user_id); title := t; content := c |} ]
              /\ r = {| status := 201;
                        body := JObject [("message", JString "Note created");
                                         ("notes", JObject [("title", JString t);
                                                            ("content", JString c)])] |}))
  /\ (forall user,
        auth w req = Next user -> route = GET_getNotes ->
        w' = w
        /\ exists found,
             r = {| status := 200;
                    body := JObject [("message", JString "Notes retrieved successfully");
                                     ("notes", JArray (List.map note_json found))] |}
             /\ (forall n, In n found <-> In n w.(notes) /\ n.(userId) = user.(user_id))).
Proof.
  unfold notes_router. intros Hrun.
  destruct (auth w req) as [refused|user] eqn:Egate.
  - injection Hrun as <- <-.
    split; [reflexivity|]. split; [|split].
    + intros refused' [= <-]. split; reflexivity.
    + intros user' [=].
    + intros user' [=].
  - destruct route.
    + unfold createNote in Hrun.
      destruct (req.(fields) !! "title") as [[|ct t]|] eqn:Et;
        destruct (req.(fields) !! "content") as [[|cc c]|] eqn:Ec;
        injection Hrun as <- <-;
        (split; [reflexivity|]; split; [intros ? [=]|]; split;
         [intros user' [= <-] _|intros user' _ [=]]);
        try (left; split; reflexivity).
      right. exists (String ct t), (String cc c). repeat split; reflexivity.
    + injection Hrun as <- <-.
      split; [reflexivity|]. split; [intros ? [=]|]. split; [intros user' _ [=]|].
      intros user' [= <-] _. split; [reflexivity|].
      exists (Notes_find user.(user_id) w). split; [reflexivity|].
      intros n. unfold Notes_find. rewrite filter_In, String.eqb_eq. reflexivity.
Qed.

(** ** The revocation store *)

Section StoreFacts.
Import RevocationStore.

Lemma isRevoked_true t (s : gmap string Z) : isRevoked t s = true <-> is_Some (s !! t).
Proof. unfold isRevoked. apply bool_decide_eq_true. Qed.

Lemma isRevoked_false t (s : gmap string Z) : isRevoked t s = false <-> s !! t = None.
Proof.
  unfold isRevoked. rewrite bool_decide_eq_false, <- eq_None_not_Some. reflexivity.
Qed.

Lemma sweepExpired_lookup clock (s : gmap string Z) k e :
  sweepExpired clock s !! k = Some e <-> s !! k = Some e /\ clock < e.
Proof. unfold sweepExpired. apply map_lookup_filter_Some. Qed.

Lemma sweepExpired_gone clock (s : gmap string Z) k :
  sweepExpired clock s !! k = None <-> forall e, s !! k = Some e -> e <= clock.
Proof.
  unfold sweepExpired. rewrite map_lookup_filter_None. split.
  - intros [Hn|Hall] e He; [congruence|]. specialize (Hall e He). cbn in Hall. lia.
  - intros Hall. right. intros e He. specialize (Hall e He). cbn. lia.
Qed.

(** Between a [revoke] and the next sweep the entry stays. *)
Lemma run_keeps_entry ops : forall (s : gmap string Z) t,
  forallb (fun o => negb (is_sweep o)) ops = true ->
  is_Some (s !! t) -> is_Some (run ops s !! t).
Proof.
  unfold run. induction ops as [|o ops IH]; intros s t Hops Hin; [exact Hin|].
  cbn in Hops. apply andb_prop in Hops as [Ho Hrest].
  cbn [fold_left]. apply IH; [exact Hrest|].
  destruct o as [t' e'| |]; cbn in *; [|exact Hin|discriminate].
  unfold revoke. destruct (decide (t' = t)) as [->|Hne].
  - rewrite lookup_insert_eq. eauto.
  - rewrite lookup_insert_ne by exact Hne. exact Hin.
Qed.

(** While every call that revokes [t] carries [exp], the entry of [t] is
    absent or holds [exp]. *)
Lemma run_keeps_expiry ops : forall (s : gmap string Z) t exp,
  forallb (keeps_expiry t exp) ops = true ->
  (s !! t = None \/ s !! t = Some exp) ->
  (run ops s !! t = None \/ run ops s !! t = Some exp).
Proof.
  unfold run. induction ops as [|o ops IH]; intros s t exp Hops Hinv; [exact Hinv|].
  cbn in Hops. apply andb_prop in Hops as [Ho Hrest].
  cbn [fold_left]. apply IH; [exact Hrest|].
  destruct o as [t' e'|t'|clock]; cbn in *.
  - unfold revoke. destruct (decide (t' = t)) as [->|Hne].
    + rewrite String.eqb_refl in Ho. cbn in Ho. apply Z.eqb_eq in Ho. subst e'.
      right. apply lookup_insert_eq.
    + rewrite lookup_insert_ne by exact Hne. exact Hinv.
  - exact Hinv.
  - destruct (sweepExpired clock s !! t) as [e|] eqn:E; [|left; reflexivity].
    apply sweepExpired_lookup in E as [E _].
    destruct Hinv as [Hn|Hs]; [congruence|]. right. congruence.
Qed.

End StoreFacts.

(** C7. Revoking a token a second time with the same expiry leaves the store
    exactly as the first call left it, whether the second call comes at once
    or after other calls that are not sweeps: the second call changes
    nothing, and [revoke] has no failing case. *)
Theorem revoke_idempotent (t : string) (exp : Z) (s : gmap string Z) :
  RevocationStore.revoke t exp (RevocationStore.revoke t exp s)
  = RevocationStore.revoke t exp s
  /\ (forall ops,
        forallb (fun o => negb (RevocationStore.is_sweep o)) ops = true ->
        forallb (RevocationStore.keeps_expiry t exp) ops = true ->
        RevocationStore.revoke t exp
          (RevocationStore.run ops (RevocationStore.revoke t exp s))
        = RevocationStore.run ops (RevocationStore.revoke t exp s)).
Proof.
  split.
  - unfold RevocationStore.revoke. apply insert_insert_eq.
  - intros ops Hquiet Hsame.
    assert (Hfirst : RevocationStore.revoke t exp s !! t = Some exp)
      by (unfold RevocationStore.revoke; apply lookup_insert_eq).
    destruct (run_keeps_entry ops _ t Hquiet (mk_is_Some _ _ Hfirst)) as [e He].
    destruct (run_keeps_expiry ops _ t exp Hsame (or_intror Hfirst)) as [Hn|Hs];
      [congruence|].
    unfold RevocationStore.revoke at 1. apply insert_id. exact Hs.
Qed.

(** C8. After [revoke t exp], [isRevoked t] holds at every point reached by
    calls that are not sweeps.  [sweepExpired now] keeps exactly the entries
    with [now < expiresAt]: it removes every entry with [expiresAt <= now]
    and never one whose expiry has not passed.  Once a sweep runs with
    [now >= exp], [isRevoked t] is false. *)
Theorem revoked_until_swept (t : string) (exp : Z) (s : gmap string Z) :
  (forall ops,
      forallb (fun o => negb (RevocationStore.is_sweep o)) ops = true ->
      RevocationStore.isRevoked t
        (RevocationStore.run ops (RevocationStore.revoke t exp s)) = true)
  /\ (forall clock (s' : gmap string Z) k e,
        RevocationStore.sweepExpired clock s' !! k = Some e <-> s' !! k = Some e /\ clock < e)
  /\ (forall clock (s' : gmap string Z) k e,
        s' !! k = Some e -> e <= clock -> RevocationStore.sweepExpired clock s' !! k = None)
  /\ (forall clock (s' : gmap string Z) k e,
        s' !! k = Some e -> clock < e -> RevocationStore.sweepExpired clock s' !! k = Some e)
  /\ (forall ops clock,
        forallb (RevocationStore.keeps_expiry t exp) ops = true ->
        exp <= clock ->
        RevocationStore.isRevoked t
          (RevocationStore.sweepExpired clock
             (RevocationStore.run ops (RevocationStore.revoke t exp s))) = false).
Proof.
  split; [|split; [|split; [|split]]].
  - intros ops Hops. apply isRevoked_true, run_keeps_entry; [exact Hops|].
    unfold RevocationStore.revoke. rewrite lookup_insert_eq. eauto.
  - intros clock s' k e. apply sweepExpired_lookup.
  - intros clock s' k e Hk He. apply sweepExpired_gone.
    intros e' He'. assert (e' = e) by congruence. lia.
  - intros clock s' k e Hk He. apply sweepExpired_lookup. split; assumption.
  - intros ops clock Hops Hclock. apply isRevoked_false, sweepExpired_gone.
    intros e He.
    destruct (run_keeps_expiry ops (RevocationStore.revoke t exp s) t exp Hops) as [Hn|Hs].
    + right. unfold RevocationStore.revoke. apply lookup_insert_eq.
    + congruence.
    + assert (e = exp) by congruence. lia.
Qed.

(** ** The model at work on the sample state *)

Ltac run_model :=
  first [ vm_compute; repeat split; reflexivity | vm_compute; discriminate ].

Lemma login_then_auth_roundtrip_witness :
  Jwt.verify (lib := Demo.lib) (Some Demo.alice_token) (Some "s3cret") 4599
  = inr (login_claims Demo.alice 1000)
  /\ auth (lib := Demo.lib) (Demo.world (Some "s3cret") 4599) (bearer Demo.alice_token ∅)
     = Next (select_without_password Demo.alice).
Proof.
  apply (login_then_auth_roundtrip (lib := Demo.lib) (bc := Demo.bcrypt)
           (Demo.world (Some "s3cret") 1000) (Demo.world (Some "s3cret") 4599)
           Demo.login_request "alice@example.com" "s3cret" Demo.alice_token Demo.alice ∅);
    run_model.
Defined.

Lemma expired_token_rejected_witness :
  auth (lib := Demo.lib) (Demo.world (Some "s3cret") 4600) (bearer Demo.alice_token ∅)
  = Responded unauthorized
  /\ Jwt.verify (lib := Demo.lib) (Some Demo.alice_token) (Some "s3cret") 4600
     = inl (Jwt.TokenExpired 4600).
Proof.
  destruct (expired_token_rejected (lib := Demo.lib)
              (Demo.world (Some "s3cret") 4600) (bearer Demo.alice_token ∅)
              ("Bearer " +:+ Demo.alice_token) Demo.alice_token Demo.alice_decoded
              ltac:(run_model) ltac:(run_model) ltac:(run_model) ltac:(run_model))
    as (_ & Hgate & Hexpired).
  split; [exact Hgate|].
  exact (Hexpired 1000 (login_claims Demo.alice 1000) ltac:(run_model)).
Defined.

Lemma tampered_payload_rejected_witness :
  Jwt.verify (lib := Demo.lib) (Some Demo.tampered_token) (Some "s3cret") 2000
  = inl Jwt.InvalidSignature
  /\ auth (lib := Demo.lib) (Demo.world (Some "s3cret") 2000) (bearer Demo.tampered_token ∅)
     = Responded unauthorized.
Proof.
  apply (tampered_payload_rejected (lib := Demo.lib)
           (Demo.world (Some "s3cret") 2000) "s3cret" "b0b_1000_4600"
           (login_claims Demo.alice 1000) (login_claims Demo.bob 1000) ∅);
    run_model.
Defined.

Lemma verification_failures_look_alike_witness :
  auth (lib := Demo.lib) (Demo.world (Some "s3cret") 9000) (bearer Demo.alice_token ∅)
  = Responded unauthorized
  /\ auth (lib := Demo.lib) (Demo.world (Some "s3cret") 2000) (bearer Demo.tampered_token ∅)
     = auth (lib := Demo.lib) (Demo.world (Some "s3cret") 9000) (bearer Demo.alice_token ∅).
Proof.
  apply (verification_failures_look_alike (lib := Demo.lib)
           (Demo.world (Some "s3cret") 9000) (Demo.world (Some "s3cret") 2000)
           (bearer Demo.alice_token ∅) (bearer Demo.tampered_token ∅)
           ("Bearer " +:+ Demo.alice_token) ("Bearer " +:+ Demo.tampered_token)
           (Jwt.TokenExpired 4600) Jwt.InvalidSignature);
    run_model.
Defined.

Lemma unresolved_subject_rejected_witness :
  auth (lib := Demo.lib) (Demo.world_without_alice (Some "s3cret") 2000)
       (Demo.note_request Demo.alice_token)
  = Responded unauthorized
  /\ notes_router (lib := Demo.lib) POST_create (Demo.world_without_alice (Some "s3cret") 2000)
                  (Demo.note_request Demo.alice_token)
     = (Demo.world_without_alice (Some "s3cret") 2000, unauthorized).
Proof.
  destruct (unresolved_subject_rejected (lib := Demo.lib)
              (Demo.world_without_alice (Some "s3cret") 2000)
              (Demo.note_request Demo.alice_token)
              ("Bearer " +:+ Demo.alice_token) Demo.alice_token
              (login_claims Demo.alice 1000) POST_create
              ltac:(run_model) ltac:(run_model) ltac:(run_model) ltac:(run_model))
    as (Hgate & Hrouter & _).
  split; [exact Hgate|exact Hrouter].
Defined.

Lemma auth_decides_without_revocation_witness :
  auth (lib := Demo.lib) (Demo.world (Some "s3cret") 2000) (bearer Demo.alice_token ∅)
  = Next (select_without_password Demo.alice).
Proof.
  destruct (auth_decides_without_revocation (lib := Demo.lib)
              (RevocationStore.revoke Demo.alice_token 4600 ∅)
              (Demo.world (Some "s3cret") 2000) (bearer Demo.alice_token ∅)
              ("Bearer " +:+ Demo.alice_token) Demo.alice_token
              ltac:(run_model) ltac:(run_model) ltac:(run_model))
    as (Haccept & _).
  exact (Haccept (login_claims Demo.alice 1000) Demo.alice ltac:(run_model) ltac:(run_model)).
Defined.

(** C2, as stated, fails: Alice's token has been put in the revocation store,
    is correctly signed and not yet expired, and the gate lets it through. *)
Lemma revoked_token_still_accepted :
  RevocationStore.isRevoked Demo.alice_token
    (RevocationStore.revoke Demo.alice_token 4600 ∅) = true
  /\ Jwt.verify (lib := Demo.lib) (Some Demo.alice_token) (Some "s3cret") 2000
     = inr (login_claims Demo.alice 1000)
  /\ auth (lib := Demo.lib) (Demo.world (Some "s3cret") 2000) (bearer Demo.alice_token ∅)
     = Next (select_without_password Demo.alice)
  /\ auth (lib := Demo.lib) (Demo.world (Some "s3cret") 2000) (bearer Demo.alice_token ∅)
     <> Responded unauthorized.
Proof.
  split; [run_model|]. split; [run_model|]. split; [run_model|].
  vm_compute. discriminate.
Qed.

(** C6, as stated, fails on "not per call": with a blank secret in the
    environment, a [login] call that has passed the credential checks is
    answered with the configuration error, although [jwt.sign] itself would
    have signed under that key. *)
Lemma login_checks_secret_per_call :
  login (lib := Demo.lib) (bc := Demo.bcrypt) (Demo.world (Some " ") 1000) Demo.login_request
  = config_error_response
  /\ login (lib := Demo.lib) (bc := Demo.bcrypt) (Demo.world None 1000) Demo.login_request
     = config_error_response
  /\ (exists token, Jwt.sign (lib := Demo.lib) "a11ce" (Some " ") expiresIn_1h 1000 = inr token).
Proof.
  split; [run_model|]. split; [run_model|]. eexists. vm_compute. reflexivity.
Qed.

Lemma secret_checked_at_startup_and_in_login_witness :
  server {| JWT_SECRET := Some " "; PORT := None |} true = Exit 1
  /\ login (lib := Demo.lib) (bc := Demo.bcrypt) (Demo.world (Some " ") 1000) Demo.login_request
     = config_error_response.
Proof.
  destruct (secret_checked_at_startup_and_in_login (lib := Demo.lib) (bc := Demo.bcrypt)
              {| JWT_SECRET := Some " "; PORT := None |} true
              (Demo.world (Some " ") 1000) Demo.login_request
              "alice@example.com" "wonderland" Demo.alice
              ltac:(run_model) ltac:(run_model) ltac:(run_model) ltac:(run_model)
              ltac:(run_model) ltac:(run_model))
    as (Hstart & _ & Hlogin & _).
  split.
  - exact (Hstart ltac:(run_model)).
  - exact (proj2 Hlogin ltac:(run_model)).
Defined.

Lemma notes_scoped_to_caller_witness :
  exists found,
    snd (notes_router (lib := Demo.lib) GET_getNotes (Demo.world (Some "s3cret") 2000)
           (bearer Demo.alice_token ∅))
    = {| status := 200;
         body := JObject [("message", JString "Notes retrieved successfully");
                          ("notes", JArray (List.map note_json found))] |}
    /\ (forall n, In n found <->
                  In n (Demo.world (Some "s3cret") 2000).(notes) /\ n.(userId) = "a11ce").
Proof.
  destruct (notes_scoped_to_caller (lib := Demo.lib) GET_getNotes
              (Demo.world (Some "s3cret") 2000)
              (fst (notes_router (lib := Demo.lib) GET_getNotes (Demo.world (Some "s3cret") 2000)
                      (bearer Demo.alice_token ∅)))
              (bearer Demo.alice_token ∅)
              (snd (notes_router (lib := Demo.lib) GET_getNotes (Demo.world (Some "s3cret") 2000)
                      (bearer Demo.alice_token ∅)))
              ltac:(run_model))
    as (_ & _ & _ & Hread).
  destruct (Hread (select_without_password Demo.alice) ltac:(run_model) ltac:(run_model))
    as (_ & found & Hr & Hfound).
  exists found. split; [exact Hr|exact Hfound].
Defined.

Lemma revoked_until_swept_witness :
  RevocationStore.isRevoked "t1"
    (RevocationStore.run [RevocationStore.Revoke "t2" 50; RevocationStore.IsRevoked "t1"]
       (RevocationStore.revoke "t1" 100 ∅)) = true
  /\ RevocationStore.isRevoked "t1"
       (RevocationStore.sweepExpired 100
          (RevocationStore.run [RevocationStore.Revoke "t2" 50; RevocationStore.SweepExpired 60]
             (RevocationStore.revoke "t1" 100 ∅))) = false.
Proof.
  destruct (revoked_until_swept "t1" 100 ∅) as (Hstays & _ & _ & _ & Hswept).
  split.
  - exact (Hstays [RevocationStore.Revoke "t2" 50; RevocationStore.IsRevoked "t1"]
             ltac:(run_model)).
  - exact (Hswept [RevocationStore.Revoke "t2" 50; RevocationStore.SweepExpired 60] 100
             ltac:(run_model) ltac:(run_model)).
Defined.

Lemma revoke_idempotent_witness :
  RevocationStore.revoke "t1" 100
    (RevocationStore.run [RevocationStore.Revoke "t2" 50; RevocationStore.IsRevoked "t1"]
       (RevocationStore.revoke "t1" 100 ∅))
  = RevocationStore.run [RevocationStore.Revoke "t2" 50; RevocationStore.IsRevoked "t1"]
      (RevocationStore.revoke "t1" 100 ∅).
Proof.
  exact (proj2 (revoke_idempotent "t1" 100 ∅)
           [RevocationStore.Revoke "t2" 50; RevocationStore.IsRevoked "t1"]
           ltac:(run_model) ltac:(run_model)).
Defined.

(** * Further properties of the handlers *)

(** ** Tokens issued by [login] *)

Section IssuedTokens.
Context {lib : Jwt.Lib} {bc : Bcrypt}.

(** The token [jwt.sign] writes for [p] under [key], read back. *)
Lemma decode_signed key p :
  Contract.header_decodes -> Contract.payload_roundtrips p ->
  Contract.signature_is_text key p ->
  Jwt.decode (Contract.token_with (Jwt.encode_payload p) (Contract.signature_of key p))
  = Some {| Jwt.header := Jwt.HS256; Jwt.payload := p;
            Jwt.signature := Contract.signature_of key p |}.
Proof.
  intros Hh (Hdec & Hne & Htext) (Hsne & Hstext).
  unfold Jwt.decode, Contract.token_with.
  rewrite split_three_segments by (reflexivity || assumption).
  unfold Jwt.isValidJws. rewrite Hne, Htext, Hstext. cbn [Jwt.nonEmpty andb].
  replace (Jwt.allBase64Url Jwt.header_HS256) with true by reflexivity. cbn [andb].
  rewrite Hh, Hdec. reflexivity.
Qed.

(** [verify] on that token, under any key that is there: the signature
    comparison, then the clock. *)
Lemma verify_signed_under key p k' key' clock :
  Contract.header_decodes -> Contract.payload_roundtrips p ->
  Contract.signature_is_text key p ->
  Jwt.verify (Some (Contract.token_with (Jwt.encode_payload p) (Contract.signature_of key p)))
             (Some (String k' key')) clock
  = if negb (String.eqb (Contract.signature_of key p)
                        (Contract.signature_of (String k' key') p))
    then inl Jwt.InvalidSignature
    else if p.(Jwt.exp) <=? clock then inl (Jwt.TokenExpired p.(Jwt.exp))
    else inr p.
Proof.
  intros Hh (Hdec & Hne & Htext) (Hsne & Hstext).
  unfold Contract.token_with.
  rewrite (verify_segments _ _ _ Jwt.HS256 p); try assumption.
  - reflexivity.
  - unfold Jwt.isValidJws. rewrite Hne, Htext, Hstext. reflexivity.
Qed.

(** The gate on a request that carries that token after the word Bearer. *)
Lemma auth_on_signed w key p body :
  Contract.header_decodes -> Contract.payload_roundtrips p ->
  Contract.signature_is_text key p ->
  auth w (bearer (Contract.token_with (Jwt.encode_payload p) (Contract.signature_of key p)) body)
  = match Jwt.verify
            (Some (Contract.token_with (Jwt.encode_payload p) (Contract.signature_of key p)))
            w.(env).(JWT_SECRET) w.(now) with
    | inr pl => match findById pl.(Jwt.id) w.(users) with
                | Some u => Next (select_without_password u)
                | None => Responded unauthorized
                end
    | inl _ => Responded unauthorized
    end.
Proof.
  intros Hh Hp Hs. unfold bearer.
  set (tok := Contract.token_with (Jwt.encode_payload p) (Contract.signature_of key p)).
  change ("Bearer " +:+ tok) with (String "B" ("earer " +:+ tok)).
  rewrite auth_presented.
  change (String "B" ("earer " +:+ tok)) with ("Bearer " +:+ tok).
  rewrite bearer_token_of_bearer; [reflexivity|].
  subst tok. apply signed_token_one_word; assumption.
Qed.

(** What a 200 answer of [login] says, with the token named. *)
Lemma login_ok_token w req token :
  login w req = login_ok_response token ->
  exists e pw u key,
    req.(fields) !! "email" = Some e /\ req.(fields) !! "password" = Some pw
    /\ findOne_email e w.(users) = Some u
    /\ bcrypt_compare pw u.(password) = true
    /\ w.(env).(JWT_SECRET) = Some key /\ JS.truthy (Some key) = true
    /\ secret_missing w.(env).(JWT_SECRET) = false
    /\ token = Contract.token_with (Jwt.encode_payload (login_claims u w.(now)))
                 (Contract.signature_of key (login_claims u w.(now))).
Proof.
  intros Hok.
  destruct (login_ok_inv w req token Hok)
    as (e & pw & u & k & key & He & Hp & Hu & Hb & Hk & Hm & Htok).
  exists e, pw, u, (String k key). repeat split; assumption.
Qed.

End IssuedTokens.

(** A token from [login] opens the gate for exactly one hour: under the same
    secret and with the user still stored, the gate lets it through at every
    clock before issue time plus 3600 seconds (earlier clocks included) and
    answers 401 from that second on. *)
Theorem login_token_lifetime {lib : Jwt.Lib} {bc : Bcrypt}
    (w w' : World) (req : Request) (e key token : string) (u : User)
    (body : gmap string string) :
  Contract.header_decodes ->
  Contract.payload_roundtrips (login_claims u w.(now)) ->
  Contract.signature_is_text key (login_claims u w.(now)) ->
  w.(env).(JWT_SECRET) = Some key ->
  req.(fields) !! "email" = Some e ->
  findOne_email e w.(users) = Some u ->
  login w req = login_ok_response token ->
  w'.(env).(JWT_SECRET) = w.(env).(JWT_SECRET) ->
  findById u.(_id) w'.(users) = Some u ->
  (w'.(now) < w.(now) + expiresIn_1h ->
   auth w' (bearer token body) = Next (select_without_password u))
  /\ (w.(now) + expiresIn_1h <= w'.(now) ->
      auth w' (bearer token body) = Responded unauthorized).
Proof.
  intros Hh Hp Hs Hkey He Hu Hlogin Hsame Hstill.
  destruct (login_ok_token w req token Hlogin)
    as (e' & pw & u' & key' & He' & _ & Hu' & _ & Hk & Hkt & _ & Htok).
  assert (e' = e) by congruence. subst e'.
  assert (u' = u) by congruence. subst u'.
  assert (key' = key) by congruence. subst key'.
  destruct key as [|k key]; [discriminate|].
  rewrite Htok, (auth_on_signed w' (String k key)) by auto.
  rewrite Hsame, Hk, (verify_signed_under (String k key)) by auto.
  rewrite String.eqb_refl. cbn [negb login_claims Jwt.exp].
  split; intros Hclock.
  - apply Z.leb_gt in Hclock. rewrite Hclock. cbn [Jwt.id login_claims]. rewrite Hstill.
    reflexivity.
  - apply Z.leb_le in Hclock. rewrite Hclock. reflexivity.
Qed.

(** Once the secret in the environment is another one, or is gone, the gate
    turns away every token [login] issued under the old secret, however
    fresh: the stored signature is not the one the new key gives. *)
Theorem changed_secret_rejects_old_tokens {lib : Jwt.Lib} {bc : Bcrypt}
    (w w' : World) (req : Request) (e key token : string) (u : User)
    (body : gmap string string) :
  Contract.header_decodes ->
  Contract.payload_roundtrips (login_claims u w.(now)) ->
  Contract.signature_is_text key (login_claims u w.(now)) ->
  w.(env).(JWT_SECRET) = Some key ->
  req.(fields) !! "email" = Some e ->
  findOne_email e w.(users) = Some u ->
  login w req = login_ok_response token ->
  (forall new,
      w'.(env).(JWT_SECRET) = Some new -> new <> key ->
      Contract.signature_of new (login_claims u w.(now))
      <> Contract.signature_of key (login_claims u w.(now))) ->
  w'.(env).(JWT_SECRET) <> w.(env).(JWT_SECRET) ->
  auth w' (bearer token body) = Responded unauthorized.
Proof.
  intros Hh Hp Hs Hkey He Hu Hlogin Hmac Hchanged.
  destruct (login_ok_token w req token Hlogin)
    as (e' & pw & u' & key' & He' & _ & Hu' & _ & Hk & Hkt & _ & Htok).
  assert (e' = e) by congruence. subst e'.
  assert (u' = u) by congruence. subst u'.
  assert (key' = key) by congruence. subst key'.
  rewrite Htok, (auth_on_signed w' key) by auto.
  destruct (Jwt.verify _ w'.(env).(JWT_SECRET) w'.(now)) as [err|pl] eqn:Everify;
    [reflexivity|].
  exfalso.
  destruct w'.(env).(JWT_SECRET) as [[|k' key']|] eqn:Ek'.
  - unfold Jwt.verify in Everify.
    repeat match type of Everify with
           | (if ?b then _ else _) = _ => destruct b
           | match ?x with _ => _ end = _ => destruct x
           end; discriminate.
  - rewrite (verify_signed_under key) in Everify by auto.
    assert (Hne : String k' key' <> key) by congruence.
    specialize (Hmac (String k' key') eq_refl Hne).
    apply not_eq_sym, String.eqb_neq in Hmac. rewrite Hmac in Everify. discriminate.
  - unfold Jwt.verify in Everify.
    repeat match type of Everify with
           | (if ?b then _ else _) = _ => destruct b
           | match ?x with _ => _ end = _ => destruct x
           end; discriminate.
Qed.

(** [login] hands out a token only after [bcrypt.compare] accepted the
    password against the first stored user with that email and only with a
    secret that is there; the token reads back as an HS256 token whose
    subject is that user's [_id], issued at the current clock and expiring
    3600 seconds later. *)
Theorem login_token_is_for_verified_user {lib : Jwt.Lib} {bc : Bcrypt}
    (w : World) (req : Request) (token : string) :
  login w req = login_ok_response token ->
  exists e pw u key,
    req.(fields) !! "email" = Some e /\ req.(fields) !! "password" = Some pw
    /\ findOne_email e w.(users) = Some u
    /\ bcrypt_compare pw u.(password) = true
    /\ w.(env).(JWT_SECRET) = Some key
    /\ secret_missing w.(env).(JWT_SECRET) = false
    /\ (Contract.header_decodes ->
        Contract.payload_roundtrips (login_claims u w.(now)) ->
        Contract.signature_is_text key (login_claims u w.(now)) ->
        Jwt.decode token
        = Some {| Jwt.header := Jwt.HS256;
                  Jwt.payload := {| Jwt.id := u.(_id); Jwt.iat := w.(now);
                                    Jwt.exp := w.(now) + 3600 |};
                  Jwt.signature := Contract.signature_of key (login_claims u w.(now)) |}).
Proof.
  intros Hlogin.
  destruct (login_ok_token w req token Hlogin)
    as (e & pw & u & key & He & Hp & Hu & Hb & Hk & _ & Hm & Htok).
  exists e, pw, u, key. repeat split; try assumption.
  intros Hh Hpl Hs. rewrite Htok. apply decode_signed; assumption.
Qed.

(** A failed [login] tells the caller which half was wrong: a stored email
    with a wrong password and an email nobody registered get two different
    400 bodies, whatever the secret is. *)
Theorem login_tells_unknown_email_from_wrong_password {lib : Jwt.Lib} {bc : Bcrypt}
    (w : World) (req1 req2 : Request) (e1 e2 pw1 pw2 : string) (u : User) :
  req1.(fields) !! "email" = Some e1 -> JS.truthy (Some e1) = true ->
  req1.(fields) !! "password" = Some pw1 -> JS.truthy (Some pw1) = true ->
  findOne_email e1 w.(users) = Some u ->
  bcrypt_compare pw1 u.(password) = false ->
  req2.(fields) !! "email" = Some e2 -> JS.truthy (Some e2) = true ->
  req2.(fields) !! "password" = Some pw2 -> JS.truthy (Some pw2) = true ->
  findOne_email e2 w.(users) = None ->
  login w req1 = message 400 "Either email or Password wrong"
  /\ login w req2 = message 400 "Invalid email or password"
  /\ login w req1 <> login w req2.
Proof.
  intros He1 Ht1 Hp1 Htp1 Hu Hb He2 Ht2 Hp2 Htp2 Hnone.
  assert (H1 : login w req1 = message 400 "Either email or Password wrong").
  { unfold login. rewrite He1, Hp1.
    destruct e1 as [|c e1]; [discriminate|]. destruct pw1 as [|c' pw1]; [discriminate|].
    rewrite Hu, Hb. reflexivity. }
  assert (H2 : login w req2 = message 400 "Invalid email or password").
  { unfold login. rewrite He2, Hp2.
    destruct e2 as [|c e2]; [discriminate|]. destruct pw2 as [|c' pw2]; [discriminate|].
    rewrite Hnone. reflexivity. }
  split; [exact H1|]. split; [exact H2|].
  rewrite H1, H2. discriminate.
Qed.

(** ** The gate and the header *)

Section HeaderFacts.
Context {lib : Jwt.Lib}.


(** The gate looks at a header that is there only through its second word. *)
Lemma auth_by_second_word w h1 h2 b1 b2 :
  JS.truthy (Some h1) = true -> JS.truthy (Some h2) = true ->
  bearer_token h1 = bearer_token h2 ->
  auth w {| authorization := Some h1; fields := b1 |}
  = auth w {| authorization := Some h2; fields := b2 |}.
Proof.
  intros Ht1 Ht2 Hsame.
  destruct h1 as [|c1 r1]; [discriminate|]. destruct h2 as [|c2 r2]; [discriminate|].
  rewrite !auth_presented, Hsame. reflexivity.
Qed.

Lemma truthy_with_space a b : JS.truthy (Some (a +:+ String " " b)) = true.
Proof. destruct a; reflexivity. Qed.

End HeaderFacts.


(** The gate never looks at the first word of the header nor at anything
    after the second: any scheme name (or none) before the token and any
    words after it give the answer that [Bearer <token>] gives. *)
Theorem gate_reads_second_word_only {lib : Jwt.Lib}
    (w : World) (scheme tok rest : string) (b1 b2 b3 : gmap string string) :
  has_char " " scheme = false ->
  has_char " " tok = false ->
  auth w {| authorization := Some (scheme +:+ " " +:+ tok); fields := b1 |}
  = auth w (bearer tok b3)
  /\ auth w {| authorization := Some (scheme +:+ " " +:+ tok +:+ " " +:+ rest);
               fields := b2 |}
     = auth w (bearer tok b3).
Proof.
  intros Hscheme Htok. unfold bearer.
  assert (Hb : bearer_token ("Bearer " +:+ tok) = Some tok)
    by (apply bearer_token_of_bearer; exact Htok).
  split; apply auth_by_second_word; try apply truthy_with_space; try reflexivity;
    rewrite Hb; unfold bearer_token.
  - change (scheme +:+ " " +:+ tok) with (scheme +:+ String " " tok).
    rewrite split_at_separator by exact Hscheme.
    rewrite (split_without_separator " " tok Htok). reflexivity.
  - change (scheme +:+ " " +:+ tok +:+ " " +:+ rest)
      with (scheme +:+ String " " (tok +:+ String " " rest)).
    rewrite split_at_separator by exact Hscheme.
    rewrite split_at_separator by exact Htok. reflexivity.
Qed.

(** A header of one word, and a header with two spaces after its first
    word, are turned away with the 401 of a bad token, whatever follows. *)
Theorem gate_rejects_headers_without_second_word {lib : Jwt.Lib}
    (w : World) (word rest : string) (b1 b2 : gmap string string) :
  JS.truthy (Some word) = true ->
  has_char " " word = false ->
  auth w {| authorization := Some word; fields := b1 |} = Responded unauthorized
  /\ auth w {| authorization := Some (word +:+ "  " +:+ rest); fields := b2 |}
     = Responded unauthorized.
Proof.
  intros Htruthy Hword. destruct word as [|c r]; [discriminate|]. split.
  - rewrite auth_presented. unfold bearer_token.
    rewrite (split_without_separator " " (String c r) Hword). reflexivity.
  - change (String c r +:+ "  " +:+ rest)
      with (String c (r +:+ String " " (String " " rest))).
    rewrite auth_presented. unfold bearer_token.
    change (String c (r +:+ String " " (String " " rest)))
      with (String c r +:+ String " " (String " " rest)).
    rewrite split_at_separator by exact Hword.
    cbn [JS.split]. rewrite Ascii.eqb_refl. reflexivity.
Qed.

(** ** [register] *)

Lemma find_app_some {A} (f : A -> bool) (l k : list A) (y : A) :
  List.find f l = Some y -> List.find f (l ++ k) = Some y.
Proof.
  induction l as [|x l IH]; cbn; [discriminate|].
  destruct (f x); [trivial|exact IH].
Qed.

Lemma find_app_none {A} (f : A -> bool) (l : list A) (x : A) :
  List.find f l = None -> List.find f (l ++ [x]) = if f x then Some x else None.
Proof.
  induction l as [|y l IH]; cbn; [reflexivity|].
  destruct (f y); [discriminate|exact IH].
Qed.

Section RegisterFacts.
Context {lib : Jwt.Lib} {bc : Bcrypt} {bh : BcryptHash}.

(** [register] answers in one of three ways. *)
Lemma register_cases oid salt w req :
  (exists n e pw,
      req.(fields) !! "name" = Some n /\ req.(fields) !! "email" = Some e
      /\ req.(fields) !! "password" = Some pw
      /\ JS.truthy (Some n) = true /\ JS.truthy (Some e) = true
      /\ JS.truthy (Some pw) = true
      /\ findOne_email e w.(users) = None
      /\ register oid salt w req
         = (User_create {| _id := oid; name := n; email := e;
                           password := bcrypt_hash pw 12 salt |} w,
            register_ok_response oid))
  \/ register oid salt w req = (w, message 400 "User already exists")
  \/ register oid salt w req = (w, message 400 "missing required field").
Proof.
  unfold register.
  destruct (req.(fields) !! "name") as [[|cn n]|]; auto.
  destruct (req.(fields) !! "email") as [[|ce e]|]; auto.
  destruct (req.(fields) !! "password") as [[|cp pw]|]; auto.
  destruct (findOne_email (String ce e) w.(users)) eqn:Ef; auto.
  left. exists (String cn n), (String ce e), (String cp pw). repeat split; auto.
Qed.

End RegisterFacts.

(** A new user can register, log in with the same email and password, and
    pass the gate as herself: the email must be free, the [_id] the database
    gives must be new, and bcrypt must accept the password against the hash
    it made of it. *)
Theorem register_then_login_then_auth {lib : Jwt.Lib} {bc : Bcrypt} {bh : BcryptHash}
    (w w2 w3 : World) (req : Request) (oid salt n e pw key : string)
    (body : gmap string string) :
  let newUser := {| _id := oid; name := n; email := e;
                    password := bcrypt_hash pw 12 salt |} in
  let token := Contract.token_with (Jwt.encode_payload (login_claims newUser w2.(now)))
                 (Contract.signature_of key (login_claims newUser w2.(now))) in
  req.(fields) !! "name" = Some n -> JS.truthy (Some n) = true ->
  req.(fields) !! "email" = Some e -> JS.truthy (Some e) = true ->
  req.(fields) !! "password" = Some pw -> JS.truthy (Some pw) = true ->
  findOne_email e w.(users) = None ->
  findById oid w.(users) = None ->
  bcrypt_compare pw (bcrypt_hash pw 12 salt) = true ->
  w2.(users) = w.(users) ++ [newUser] ->
  w2.(env).(JWT_SECRET) = Some key -> secret_missing (Some key) = false ->
  Contract.header_decodes ->
  Contract.payload_roundtrips (login_claims newUser w2.(now)) ->
  Contract.signature_is_text key (login_claims newUser w2.(now)) ->
  w3.(users) = w2.(users) -> w3.(env).(JWT_SECRET) = Some key ->
  w3.(now) < w2.(now) + expiresIn_1h ->
  register oid salt w req = (User_create newUser w, register_ok_response oid)
  /\ (User_create newUser w).(users) = w.(users) ++ [newUser]
  /\ login w2 req = login_ok_response token
  /\ auth w3 (bearer token body)
     = Next {| user_id := oid; user_name := n; user_email := e |}.
Proof.
  intros newUser token Hn Htn He Hte Hp Htp Hfree Hfresh Hbcrypt Hw2 Hk2 Hsecret
    Hh Hpl Hs Hw3 Hk3 Hclock.
  split; [|split; [reflexivity|split]].
  - unfold register. rewrite Hn, He, Hp.
    destruct n as [|cn n]; [discriminate|]. destruct e as [|ce e]; [discriminate|].
    destruct pw as [|cp pw]; [discriminate|].
    rewrite Hfree. reflexivity.
  - rewrite (login_after_credentials w2 req e pw newUser); try assumption.
    + rewrite Hk2, Hsecret.
      destruct key as [|k key]; [discriminate|]. reflexivity.
    + rewrite Hw2. unfold findOne_email.
      rewrite find_app_none by exact Hfree.
      cbn [email newUser]. rewrite String.eqb_refl. reflexivity.
  - destruct key as [|k key]; [discriminate|].
    subst token. rewrite (auth_on_signed w3 (String k key)) by assumption.
    rewrite Hk3, (verify_signed_under (String k key)) by assumption.
    rewrite String.eqb_refl. cbn [negb login_claims Jwt.exp Jwt.id].
    apply Z.leb_gt in Hclock. rewrite Hclock.
    rewrite Hw3, Hw2. unfold findById.
    rewrite find_app_none by exact Hfresh.
    cbn [_id newUser]. rewrite String.eqb_refl. reflexivity.
Qed.



(** [register] leaves the accounts that exist alone: notes, environment and
    clock are untouched, the users collection grows at its end by at most
    one document, every lookup by [_id] or by email that found a user still
    finds the same one, and a request the gate let through, or a login that
    succeeded, has the same outcome afterwards. *)
Theorem register_leaves_existing_accounts {lib : Jwt.Lib} {bc : Bcrypt} {bh : BcryptHash}
    (oid salt : string) (w w' : World) (req : Request) (r : Response) :
  register oid salt w req = (w', r) ->
  w'.(notes) = w.(notes) /\ w'.(env) = w.(env) /\ w'.(now) = w.(now)
  /\ (exists added, w'.(users) = w.(users) ++ added /\ (length added <= 1)%nat)
  /\ (forall i u, findById i w.(users) = Some u -> findById i w'.(users) = Some u)
  /\ (forall e u, findOne_email e w.(users) = Some u -> findOne_email e w'.(users) = Some u)
  /\ (forall req' user, auth w req' = Next user -> auth w' req' = Next user)
  /\ (forall req' token,
        login w req' = login_ok_response token -> login w' req' = login_ok_response token).
Proof.
  intros Hrun.
  assert (Hframe : w'.(notes) = w.(notes) /\ w'.(env) = w.(env) /\ w'.(now) = w.(now)
                   /\ exists added, w'.(users) = w.(users) ++ added /\ (length added <= 1)%nat).
  { destruct (register_cases oid salt w req)
      as [(n & e & pw & _ & _ & _ & _ & _ & _ & _ & Hok)|[Hrefused|Hrefused]];
      rewrite Hrun in *.
    - injection Hok as -> _. repeat split; try reflexivity.
      eexists. split; [reflexivity|]. cbn. lia.
    - injection Hrefused as -> _. repeat split; try reflexivity.
      exists []. split; [symmetry; apply app_nil_r|cbn; lia].
    - injection Hrefused as -> _. repeat split; try reflexivity.
      exists []. split; [symmetry; apply app_nil_r|cbn; lia]. }
  destruct Hframe as (Hnotes & Henv & Hnow & added & Husers & Hlen).
  assert (Hid : forall i u, findById i w.(users) = Some u -> findById i w'.(users) = Some u).
  { intros i u Hu. rewrite Husers. apply find_app_some. exact Hu. }
  assert (Hmail : forall e u,
             findOne_email e w.(users) = Some u -> findOne_email e w'.(users) = Some u).
  { intros e u Hu. rewrite Husers. apply find_app_some. exact Hu. }
  repeat split; try assumption.
  - exists added. split; assumption.
  - intros req' user. unfold auth. rewrite Henv, Hnow.
    destruct req'.(authorization) as [[|c h]|]; try discriminate.
    destruct (Jwt.verify (bearer_token (String c h)) w.(env).(JWT_SECRET) w.(now))
      as [err|pl]; try discriminate.
    destruct (findById pl.(Jwt.id) w.(users)) as [u|] eqn:Eu; try discriminate.
    rewrite (Hid _ _ Eu). trivial.
  - intros req' token Hlogin.
    destruct (login_ok_token w req' token Hlogin)
      as (e & pw & u & key & He & Hp & Hu & Hb & Hk & Hkt & Hm & Htok).
    destruct e as [|ce e]; [unfold login in Hlogin; rewrite He in Hlogin; discriminate|].
    destruct pw as [|cp pw];
      [unfold login in Hlogin; rewrite He, Hp in Hlogin; discriminate|].
    rewrite (login_after_credentials w' req' _ _ u He eq_refl Hp eq_refl (Hmail _ _ Hu) Hb).
    rewrite (login_after_credentials w req' _ _ u He eq_refl Hp eq_refl Hu Hb) in Hlogin.
    rewrite Henv, Hnow. exact Hlogin.
Qed.

(** ** Notes: creating, then listing *)

(** A note created for a user shows up at the end of that user's own list
    and in nobody else's: [getNotes] for the owner answers the notes listed
    before followed by the new one, and for any other user it answers what it
    answered before. *)
Theorem created_note_listed_for_owner_only
    (w : World) (user : ReqUser) (req : Request) (t c : string) :
  req.(fields) !! "title" = Some t -> JS.truthy (Some t) = true ->
  req.(fields) !! "content" = Some c -> JS.truthy (Some c) = true ->
  let note := {| userId := user.(user_id); title := t; content := c |} in
  let w' := fst (createNote w user req) in
  (snd (createNote w user req)).(status) = 201
  /\ Notes_find user.(user_id) w' = Notes_find user.(user_id) w ++ [note]
  /\ getNotes w' user
     = {| status := 200;
          body := JObject [("message", JString "Notes retrieved successfully");
                           ("notes", JArray (List.map note_json
                                               (Notes_find user.(user_id) w ++ [note])))] |}
  /\ (forall other, other.(user_id) <> user.(user_id) -> getNotes w' other = getNotes w other).
Proof.
  intros Ht Htt Hc Htc note w'.
  assert (Hrun : createNote w user req
                 = (Notes_create note w,
                    {| status := 201;
                       body := JObject [("message", JString "Note created");
                                        ("notes", JObject [("title", JString t);
                                                           ("content", JString c)])] |})).
  { unfold createNote. rewrite Ht, Hc.
    destruct t as [|ct t]; [discriminate|]. destruct c as [|cc c]; [discriminate|].
    reflexivity. }
  subst w'. rewrite Hrun. cbn [fst snd status].
  assert (Hown : Notes_find user.(user_id) (Notes_create note w)
                 = Notes_find user.(user_id) w ++ [note]).
  { unfold Notes_find, Notes_create. cbn [set_notes notes].
    rewrite List.filter_app. cbn [List.filter note userId].
    rewrite String.eqb_refl. reflexivity. }
  split; [reflexivity|]. split; [exact Hown|]. split.
  - unfold getNotes. rewrite Hown. reflexivity.
  - intros other Hother. unfold getNotes, Notes_find, Notes_create. cbn [set_notes notes].
    rewrite List.filter_app. cbn [List.filter note userId].
    apply not_eq_sym, String.eqb_neq in Hother. rewrite Hother, app_nil_r. reflexivity.
Qed.

Section NotesFlow.
Context {lib : Jwt.Lib} {bc : Bcrypt}.

(** The gate on a token from [login], while it lasts. *)
Lemma auth_accepts_login_token w w' req e key token u body :
  Contract.header_decodes ->
  Contract.payload_roundtrips (login_claims u w.(now)) ->
  Contract.signature_is_text key (login_claims u w.(now)) ->
  w.(env).(JWT_SECRET) = Some key ->
  req.(fields) !! "email" = Some e ->
  findOne_email e w.(users) = Some u ->
  login w req = login_ok_response token ->
  w'.(env).(JWT_SECRET) = Some key ->
  findById u.(_id) w'.(users) = Some u ->
  w'.(now) < w.(now) + expiresIn_1h ->
  auth w' (bearer token body) = Next (select_without_password u).
Proof.
  intros Hh Hp Hs Hkey He Hu Hlogin Hsame Hstill Hclock.
  destruct (login_ok_token w req token Hlogin)
    as (e' & pw & u' & key' & He' & _ & Hu' & _ & Hk & Hkt & _ & Htok).
  assert (e' = e) by congruence. subst e'.
  assert (u' = u) by congruence. subst u'.
  assert (key' = key) by congruence. subst key'.
  destruct key as [|k key]; [discriminate|].
  rewrite Htok, (auth_on_signed w' (String k key)) by auto.
  rewrite Hsame, (verify_signed_under (String k key)) by auto.
  rewrite String.eqb_refl. cbn [negb login_claims Jwt.exp].
  apply Z.leb_gt in Hclock. rewrite Hclock. cbn [Jwt.id login_claims].
  rewrite Hstill. reflexivity.
Qed.

End NotesFlow.

(** From login to a stored note and back: with the token [login] gave, a
    [POST /create] with a title and a content stores one note under the
    user's [_id] and answers 201, and a following [GET /getNotes] with the
    same token answers 200 with the user's earlier notes and then the new
    one. *)
Theorem login_create_get_flow {lib : Jwt.Lib} {bc : Bcrypt}
    (w w1 : World) (req : Request) (e key token t c : string) (u : User)
    (body body' : gmap string string) :
  Contract.header_decodes ->
  Contract.payload_roundtrips (login_claims u w.(now)) ->
  Contract.signature_is_text key (login_claims u w.(now)) ->
  w.(env).(JWT_SECRET) = Some key ->
  req.(fields) !! "email" = Some e ->
  findOne_email e w.(users) = Some u ->
  login w req = login_ok_response token ->
  w1.(env).(JWT_SECRET) = Some key ->
  findById u.(_id) w1.(users) = Some u ->
  w1.(now) < w.(now) + expiresIn_1h ->
  body !! "title" = Some t -> JS.truthy (Some t) = true ->
  body !! "content" = Some c -> JS.truthy (Some c) = true ->
  let note := {| userId := u.(_id); title := t; content := c |} in
  notes_router POST_create w1 (bearer token body)
  = (Notes_create note w1,
     {| status := 201;
        body := JObject [("message", JString "Note created");
                         ("notes", JObject [("title", JString t);
                                            ("content", JString c)])] |})
  /\ notes_router GET_getNotes (Notes_create note w1) (bearer token body')
     = (Notes_create note w1,
        {| status := 200;
           body := JObject [("message", JString "Notes retrieved successfully");
                            ("notes", JArray (List.map note_json
                                                (Notes_find u.(_id) w1 ++ [note])))] |}).
Proof.
  intros Hh Hp Hs Hkey He Hu Hlogin Hk1 Hstill Hclock Ht Htt Hc Htc note.
  assert (Hgate : forall b, auth w1 (bearer token b) = Next (select_without_password u))
    by (intros b; apply (auth_accepts_login_token w w1 req e key); assumption).
  assert (Hgate' : forall b,
             auth (Notes_create note w1) (bearer token b) = Next (select_without_password u))
    by (intros b; apply (auth_accepts_login_token w _ req e key); assumption).
  split.
  - unfold notes_router. rewrite Hgate. unfold createNote, bearer. cbn [fields].
    rewrite Ht, Hc.
    destruct t as [|ct t]; [discriminate|]. destruct c as [|cc c]; [discriminate|].
    reflexivity.
  - unfold notes_router. rewrite Hgate'. unfold getNotes, Notes_find, Notes_create.
    cbn [set_notes notes select_without_password user_id].
    rewrite List.filter_app. cbn [List.filter note userId].
    rewrite String.eqb_refl. reflexivity.
Qed.

(** ** The guard on the secret *)

Lemma every_char_reverse f acc s :
  every_char f (JS.reverse acc s) = every_char f acc && every_char f s.
Proof.
  revert acc. induction s as [|c r IH]; intros acc; cbn.
  - rewrite andb_true_r. reflexivity.
  - rewrite IH. cbn. rewrite !andb_assoc. f_equal. apply andb_comm.
Qed.

Lemma every_char_trimStart s :
  every_char JS.isWhiteSpace (JS.trimStart s) = every_char JS.isWhiteSpace s.
Proof.
  induction s as [|c r IH]; [reflexivity|]. cbn [JS.trimStart].
  destruct (JS.isWhiteSpace c) eqn:E; [|reflexivity].
  rewrite IH. cbn. rewrite E. reflexivity.
Qed.

Lemma trimStart_empty s :
  JS.trimStart s = "" <-> every_char JS.isWhiteSpace s = true.
Proof.
  induction s as [|c r IH]; [split; reflexivity|]. cbn.
  destruct (JS.isWhiteSpace c); [exact IH|]. split; discriminate.
Qed.

Lemma reverse_empty s : JS.reverse "" s = "" <-> s = "".
Proof.
  split; [|intros ->; reflexivity].
  intros Hrev. pose proof (reverse_nonEmpty "" s) as Hn. rewrite Hrev in Hn.
  destruct s; [reflexivity|discriminate].
Qed.

Lemma trim_empty s : JS.trim s = "" <-> every_char JS.isWhiteSpace s = true.
Proof.
  unfold JS.trim, JS.trimEnd.
  rewrite reverse_empty, trimStart_empty, every_char_reverse, every_char_trimStart.
  reflexivity.
Qed.

(** The guard of the two files treats as missing exactly an unset variable
    and a value all of whose characters are white space (the empty value
    among them); one character that is not white space is enough for the
    server to start and for [login] to go on to sign. *)
Theorem secret_missing_iff_blank (s : option string) :
  secret_missing s = true
  <-> s = None \/ exists str, s = Some str /\ every_char JS.isWhiteSpace str = true.
Proof.
  unfold secret_missing. destruct s as [str|]; cbn [JS.truthy negb orb].
  - rewrite orb_true_iff, String.eqb_eq, trim_empty. split.
    + intros [Hempty|Hblank]; right; exists str; split; try reflexivity; try assumption.
      destruct str; [reflexivity|discriminate].
    + intros [Hnone|(str' & [= <-] & Hblank)]; [discriminate|]. right. exact Hblank.
  - split; [intros _; left; reflexivity|reflexivity].
Qed.

(** Whichever script started the process, no token is issued while the
    secret is missing.  The first script does not start at all; the second
    one listens, with the auth routes only, and there no call of [login]
    answers 200. *)
Theorem unchecked_entry_serves_without_secret {lib : Jwt.Lib} {bc : Bcrypt}
    (e : Env) (w : World) (req : Request) :
  secret_missing e.(JWT_SECRET) = true ->
  w.(env) = e ->
  server e true = Exit 1
  /\ (exists port, server_auth_only e true = Listening port ["/api/auth"])
  /\ (login w req).(status) <> 200.
Proof.
  intros Hmissing Henv. split; [|split].
  - unfold server. rewrite Hmissing. reflexivity.
  - eexists. reflexivity.
  - unfold login.
    repeat match goal with
           | |- context [match ?x with _ => _ end] =>
               lazymatch x with
               | Jwt.sign _ _ _ _ => fail
               | _ => destruct x eqn:?
               end
           | |- context [if ?b then _ else _] => destruct b eqn:?
           end; try (cbn; discriminate).
    all: rewrite Henv, Hmissing in *; discriminate.
Qed.

(** ** The further properties on the sample state *)

Lemma login_token_lifetime_witness :
  auth (lib := Demo.lib) (Demo.world (Some "s3cret") 4599) (bearer Demo.alice_token ∅)
  = Next (select_without_password Demo.alice)
  /\ auth (lib := Demo.lib) (Demo.world (Some "s3cret") 4600) (bearer Demo.alice_token ∅)
     = Responded unauthorized.
Proof.
  split.
  - exact (proj1 (login_token_lifetime (lib := Demo.lib) (bc := Demo.bcrypt)
                    (Demo.world (Some "s3cret") 1000) (Demo.world (Some "s3cret") 4599)
                    Demo.login_request "alice@example.com" "s3cret" Demo.alice_token
                    Demo.alice ∅
                    ltac:(run_model) ltac:(run_model) ltac:(run_model) ltac:(run_model)
                    ltac:(run_model) ltac:(run_model) ltac:(run_model) ltac:(run_model)
                    ltac:(run_model))
             ltac:(run_model)).
  - exact (proj2 (login_token_lifetime (lib := Demo.lib) (bc := Demo.bcrypt)
                    (Demo.world (Some "s3cret") 1000) (Demo.world (Some "s3cret") 4600)
                    Demo.login_request "alice@example.com" "s3cret" Demo.alice_token
                    Demo.alice ∅
                    ltac:(run_model) ltac:(run_model) ltac:(run_model) ltac:(run_model)
                    ltac:(run_model) ltac:(run_model) ltac:(run_model) ltac:(run_model)
                    ltac:(run_model))
             ltac:(run_model)).
Defined.

Lemma changed_secret_rejects_old_tokens_witness :
  auth (lib := Demo.lib) (Demo.world (Some "n3wkey") 2000) (bearer Demo.alice_token ∅)
  = Responded unauthorized
  /\ auth (lib := Demo.lib) (Demo.world None 2000) (bearer Demo.alice_token ∅)
     = Responded unauthorized.
Proof.
  split.
  - exact (changed_secret_rejects_old_tokens (lib := Demo.lib) (bc := Demo.bcrypt)
             (Demo.world (Some "s3cret") 1000) (Demo.world (Some "n3wkey") 2000)
             Demo.login_request "alice@example.com" "s3cret" Demo.alice_token Demo.alice ∅
             ltac:(run_model) ltac:(run_model) ltac:(run_model) ltac:(run_model)
             ltac:(run_model) ltac:(run_model) ltac:(run_model)
             ltac:(intros new [= <-] _; run_model) ltac:(run_model)).
  - exact (changed_secret_rejects_old_tokens (lib := Demo.lib) (bc := Demo.bcrypt)
             (Demo.world (Some "s3cret") 1000) (Demo.world None 2000)
             Demo.login_request "alice@example.com" "s3cret" Demo.alice_token Demo.alice ∅
             ltac:(run_model) ltac:(run_model) ltac:(run_model) ltac:(run_model)
             ltac:(run_model) ltac:(run_model) ltac:(run_model)
             ltac:(intros new [=]) ltac:(run_model)).
Defined.

Lemma login_token_is_for_verified_user_witness :
  exists u,
    findOne_email "alice@example.com" (Demo.world (Some "s3cret") 1000).(users) = Some u
    /\ bcrypt_compare (Bcrypt := Demo.bcrypt) "wonderland" u.(password) = true.
Proof.
  destruct (login_token_is_for_verified_user (lib := Demo.lib) (bc := Demo.bcrypt)
              (Demo.world (Some "s3cret") 1000) Demo.login_request Demo.alice_token
              ltac:(run_model))
    as (e & pw & u & key & He & Hp & Hu & Hb & _).
  vm_compute in He. injection He as <-.
  vm_compute in Hp. injection Hp as <-.
  exists u. split; [exact Hu|exact Hb].
Defined.

Lemma login_tells_unknown_email_from_wrong_password_witness :
  login (lib := Demo.lib) (bc := Demo.bcrypt) (Demo.world (Some "s3cret") 1000)
        Sample.wrong_password_request
  <> login (lib := Demo.lib) (bc := Demo.bcrypt) (Demo.world (Some "s3cret") 1000)
           Sample.unknown_email_request.
Proof.
  exact (proj2 (proj2
    (login_tells_unknown_email_from_wrong_password (lib := Demo.lib) (bc := Demo.bcrypt)
       (Demo.world (Some "s3cret") 1000)
       Sample.wrong_password_request Sample.unknown_email_request
       "alice@example.com" "mallory@example.com" "guess" "guess" Demo.alice
       ltac:(run_model) ltac:(run_model) ltac:(run_model) ltac:(run_model)
       ltac:(run_model) ltac:(run_model) ltac:(run_model) ltac:(run_model)
       ltac:(run_model) ltac:(run_model) ltac:(run_model)))).
Defined.


Lemma gate_reads_second_word_only_witness :
  auth (lib := Demo.lib) (Demo.world (Some "s3cret") 2000)
       {| authorization := Some ("Token " +:+ Demo.alice_token); fields := ∅ |}
  = auth (lib := Demo.lib) (Demo.world (Some "s3cret") 2000) (bearer Demo.alice_token ∅)
  /\ auth (lib := Demo.lib) (Demo.world (Some "s3cret") 2000)
          {| authorization := Some ("Token " +:+ Demo.alice_token +:+ " and more");
             fields := ∅ |}
     = auth (lib := Demo.lib) (Demo.world (Some "s3cret") 2000) (bearer Demo.alice_token ∅).
Proof.
  exact (gate_reads_second_word_only (lib := Demo.lib) (Demo.world (Some "s3cret") 2000)
           "Token" Demo.alice_token "and more" ∅ ∅ ∅ ltac:(run_model) ltac:(run_model)).
Defined.

Lemma gate_rejects_headers_without_second_word_witness :
  auth (lib := Demo.lib) (Demo.world (Some "s3cret") 2000)
       {| authorization := Some "Bearer"; fields := ∅ |}
  = Responded unauthorized
  /\ auth (lib := Demo.lib) (Demo.world (Some "s3cret") 2000)
          {| authorization := Some ("Bearer  " +:+ Demo.alice_token); fields := ∅ |}
     = Responded unauthorized.
Proof.
  exact (gate_rejects_headers_without_second_word (lib := Demo.lib)
           (Demo.world (Some "s3cret") 2000) "Bearer" Demo.alice_token ∅ ∅
           ltac:(run_model) ltac:(run_model)).
Defined.

Lemma register_then_login_then_auth_witness :
  login (lib := Demo.lib) (bc := Demo.bcrypt)
        (Sample.world_with_carol (Some "s3cret") 1000) Sample.carol_request
  = login_ok_response Sample.carol_token
  /\ auth (lib := Demo.lib) (Sample.world_with_carol (Some "s3cret") 2000)
          (bearer Sample.carol_token ∅)
     = Next {| user_id := "c4r01"; user_name := "Carol";
               user_email := "carol@example.com" |}.
Proof.
  exact (proj2 (proj2
    (register_then_login_then_auth (lib := Demo.lib) (bc := Demo.bcrypt) (bh := Sample.hasher)
       (Demo.world (Some "s3cret") 900)
       (Sample.world_with_carol (Some "s3cret") 1000)
       (Sample.world_with_carol (Some "s3cret") 2000)
       Sample.carol_request "c4r01" "salt" "Carol" "carol@example.com" "pass" "s3cret" ∅
       ltac:(run_model) ltac:(run_model) ltac:(run_model) ltac:(run_model)
       ltac:(run_model) ltac:(run_model) ltac:(run_model) ltac:(run_model)
       ltac:(run_model) ltac:(run_model) ltac:(run_model) ltac:(run_model)
       ltac:(run_model) ltac:(run_model) ltac:(run_model) ltac:(run_model)
       ltac:(run_model) ltac:(run_model)))).
Defined.


Lemma register_leaves_existing_accounts_witness :
  auth (lib := Demo.lib)
       (fst (register (bh := Sample.hasher) "c4r01" "salt"
               (Demo.world (Some "s3cret") 2000) Sample.carol_request))
       (bearer Demo.alice_token ∅)
  = Next (select_without_password Demo.alice).
Proof.
  destruct (register_leaves_existing_accounts
              (lib := Demo.lib) (bc := Demo.bcrypt) (bh := Sample.hasher) "c4r01" "salt"
              (Demo.world (Some "s3cret") 2000)
              (fst (register (bh := Sample.hasher) "c4r01" "salt"
                      (Demo.world (Some "s3cret") 2000) Sample.carol_request))
              Sample.carol_request
              (snd (register (bh := Sample.hasher) "c4r01" "salt"
                      (Demo.world (Some "s3cret") 2000) Sample.carol_request))
              ltac:(run_model))
    as (_ & _ & _ & _ & _ & _ & Hgate & _).
  exact (Hgate (bearer Demo.alice_token ∅) (select_without_password Demo.alice)
           ltac:(run_model)).
Defined.

Lemma created_note_listed_for_owner_only_witness :
  Notes_find "a11ce"
    (fst (createNote (Demo.world (Some "s3cret") 2000) (select_without_password Demo.alice)
            (Demo.note_request Demo.alice_token)))
  = [ {| userId := "a11ce"; title := "list"; content := "milk" |} ]
  /\ getNotes
       (fst (createNote (Demo.world (Some "s3cret") 2000) (select_without_password Demo.alice)
               (Demo.note_request Demo.alice_token)))
       (select_without_password Demo.bob)
     = getNotes (Demo.world (Some "s3cret") 2000) (select_without_password Demo.bob).
Proof.
  destruct (created_note_listed_for_owner_only
              (Demo.world (Some "s3cret") 2000) (select_without_password Demo.alice)
              (Demo.note_request Demo.alice_token) "list" "milk"
              ltac:(run_model) ltac:(run_model) ltac:(run_model) ltac:(run_model))
    as (_ & Hown & _ & Hothers).
  split.
  - exact Hown.
  - exact (Hothers (select_without_password Demo.bob) ltac:(run_model)).
Defined.

Lemma login_create_get_flow_witness :
  notes_router (lib := Demo.lib) GET_getNotes
    (Notes_create {| userId := "a11ce"; title := "list"; content := "milk" |}
       (Demo.world (Some "s3cret") 2000))
    (bearer Demo.alice_token ∅)
  = (Notes_create {| userId := "a11ce"; title := "list"; content := "milk" |}
       (Demo.world (Some "s3cret") 2000),
     {| status := 200;
        body := JObject [("message", JString "Notes retrieved successfully");
                         ("notes", JArray [note_json {| userId := "a11ce"; title := "list";
                                                        content := "milk" |}])] |}).
Proof.
  exact (proj2
    (login_create_get_flow (lib := Demo.lib) (bc := Demo.bcrypt)
       (Demo.world (Some "s3cret") 1000) (Demo.world (Some "s3cret") 2000)
       Demo.login_request "alice@example.com" "s3cret" Demo.alice_token "list" "milk"
       Demo.alice {[ "title" := "list"; "content" := "milk" ]} ∅
       ltac:(run_model) ltac:(run_model) ltac:(run_model) ltac:(run_model)
       ltac:(run_model) ltac:(run_model) ltac:(run_model) ltac:(run_model)
       ltac:(run_model) ltac:(run_model) ltac:(run_model) ltac:(run_model)
       ltac:(run_model) ltac:(run_model))).
Defined.

Lemma secret_missing_iff_blank_witness :
  secret_missing (Some "  ") = true /\ secret_missing (Some " k ") <> true.
Proof.
  split.
  - apply (proj2 (secret_missing_iff_blank (Some "  "))).
    right. exists "  ". split; reflexivity.
  - intros Hmissing.
    destruct (proj1 (secret_missing_iff_blank (Some " k ")) Hmissing)
      as [Hnone|(str & Hstr & Hblank)]; [discriminate|].
    injection Hstr as <-. vm_compute in Hblank. discriminate.
Defined.

Lemma unchecked_entry_serves_without_secret_witness :
  server {| JWT_SECRET := None; PORT := None |} true = Exit 1
  /\ (exists port,
        server_auth_only {| JWT_SECRET := None; PORT := None |} true
        = Listening port ["/api/auth"])
  /\ (login (lib := Demo.lib) (bc := Demo.bcrypt) (Demo.world None 1000) Demo.login_request).(status)
     <> 200.
Proof.
  exact (unchecked_entry_serves_without_secret (lib := Demo.lib) (bc := Demo.bcrypt)
           {| JWT_SECRET := None; PORT := None |} (Demo.world None 1000) Demo.login_request
           ltac:(run_model) ltac:(run_model)).
Defined.

(** ** Any sequence of requests *)

Section Sequences.
Context {lib : Jwt.Lib} {bh : BcryptHash}.

Lemma auth_next_user_stored w req user :
  auth w req = Next user -> exists u, In u w.(users) /\ u.(_id) = user.(user_id).
Proof.
  unfold auth.
  destruct req.(authorization) as [[|c h]|]; try discriminate.
  destruct (Jwt.verify (bearer_token (String c h)) w.(env).(JWT_SECRET) w.(now))
    as [err|pl]; try discriminate.
  destruct (findById pl.(Jwt.id) w.(users)) as [u|] eqn:Eu; try discriminate.
  intros [= <-]. apply find_some in Eu as [Hin _]. exists u. split; [exact Hin|reflexivity].
Qed.

(** What one call can do to the state: add one user, or add one note for the
    user the gate resolved, or nothing. *)
Lemma serve_cases w c :
  serve w c = w
  \/ (exists t, serve w c = set_now w t)
  \/ (exists doc,
        serve w c = User_create doc w /\ findOne_email doc.(email) w.(users) = None)
  \/ (exists user t c',
        serve w c = Notes_create {| userId := user.(user_id); title := t; content := c' |} w
        /\ t <> "" /\ c' <> ""
        /\ exists u, In u w.(users) /\ u.(_id) = user.(user_id)).
Proof.
  destruct c as [oid salt req|req|route req|t]; cbn [serve].
  - destruct (register_cases oid salt w req)
      as [(n & e & pw & _ & _ & _ & _ & _ & _ & Hfree & Hok)|[Hrefused|Hrefused]].
    + right. right. left. eexists. rewrite Hok. split; [reflexivity|exact Hfree].
    + left. rewrite Hrefused. reflexivity.
    + left. rewrite Hrefused. reflexivity.
  - left. reflexivity.
  - unfold notes_router. destruct (auth w req) as [r|user] eqn:Egate; [left; reflexivity|].
    destruct route; [|left; reflexivity].
    unfold createNote.
    destruct (req.(fields) !! "title") as [[|ct t]|];
      destruct (req.(fields) !! "content") as [[|cc c']|];
      try (left; reflexivity).
    right. right. right. exists user, (String ct t), (String cc c').
    repeat split; try discriminate. apply (auth_next_user_stored w req). exact Egate.
  - right. left. exists t. reflexivity.
Qed.

Lemma serve_extends w c :
  (serve w c).(env) = w.(env)
  /\ exists us ns,
       (serve w c).(users) = w.(users) ++ us /\ (serve w c).(notes) = w.(notes) ++ ns.
Proof.
  destruct (serve_cases w c)
    as [->|[(t & ->)|[(doc & -> & _)|(user & t & c' & -> & _)]]];
    (split; [reflexivity|]).
  - exists [], []. rewrite !app_nil_r. split; reflexivity.
  - exists [], []. rewrite !app_nil_r. split; reflexivity.
  - exists [doc], []. rewrite app_nil_r. split; reflexivity.
  - eexists [], [_]. rewrite app_nil_r. split; reflexivity.
Qed.


End Sequences.

(** No request removes or rewrites anything.  After any sequence of calls
    the environment is the same, both collections are the old ones with new
    documents at the end, every user that could be looked up by [_id] still
    is, and every user's list of notes is the old list with notes added. *)
Theorem nothing_is_ever_removed {lib : Jwt.Lib} {bh : BcryptHash}
    (calls : list Call) (w : World) :
  (serve_all calls w).(env) = w.(env)
  /\ (exists us, (serve_all calls w).(users) = w.(users) ++ us)
  /\ (exists ns, (serve_all calls w).(notes) = w.(notes) ++ ns)
  /\ (forall i u, findById i w.(users) = Some u ->
                  findById i (serve_all calls w).(users) = Some u)
  /\ (forall uid, exists more,
        Notes_find uid (serve_all calls w) = Notes_find uid w ++ more).
Proof.
  assert (Hgrow : (serve_all calls w).(env) = w.(env)
                  /\ exists us ns, (serve_all calls w).(users) = w.(users) ++ us
                                   /\ (serve_all calls w).(notes) = w.(notes) ++ ns).
  { unfold serve_all. revert w. induction calls as [|c calls IH]; intros w; cbn [fold_left].
    - split; [reflexivity|]. exists [], []. rewrite !app_nil_r. split; reflexivity.
    - destruct (IH (serve w c)) as (Henv & us & ns & Hus & Hns).
      destruct (serve_extends w c) as (Henv1 & us1 & ns1 & Hus1 & Hns1).
      split; [congruence|]. exists (us1 ++ us), (ns1 ++ ns).
      rewrite Hus, Hns, Hus1, Hns1, <- !app_assoc. split; reflexivity. }
  destruct Hgrow as (Henv & us & ns & Hus & Hns).
  split; [exact Henv|]. split; [exists us; exact Hus|]. split; [exists ns; exact Hns|].
  split.
  - intros i u Hu. rewrite Hus. apply find_app_some. exact Hu.
  - intros uid. unfold Notes_find. rewrite Hns, List.filter_app. eexists. reflexivity.
Qed.



Lemma nothing_is_ever_removed_witness :
  findById "a11ce"
    (serve_all (lib := Demo.lib) (bh := Sample.hasher)
       [Register "a11ce" "salt" Sample.carol_request;
        ClockAt 2000;
        NotesCall POST_create (Demo.note_request Demo.alice_token)]
       (Demo.world (Some "s3cret") 1000)).(users)
  = Some Demo.alice.
Proof.
  destruct (nothing_is_ever_removed (lib := Demo.lib) (bh := Sample.hasher)
              [Register "a11ce" "salt" Sample.carol_request;
               ClockAt 2000;
               NotesCall POST_create (Demo.note_request Demo.alice_token)]
              (Demo.world (Some "s3cret") 1000))
    as (_ & _ & _ & Hfound & _).
  exact (Hfound "a11ce" Demo.alice ltac:(run_model)).
Defined.
